(** * NYC DOB job application filings: the processing pipeline of
      [scripts/data_processing.py]

    The script is a linear pipeline over data frames:
    [download_data], [load_data], [process_data], [save_processed_data]
    and [create_visualizations], composed by [main].

    A data frame is a list of rows; a row is a record of the columns the
    script names; a cell that pandas would show as [None]/[NaN]/[NaT] is
    [None].  Numeric cells are exact rationals ([Qc]): the rounding of
    binary64 arithmetic is outside this development.  The pandas
    operations the script calls ([to_datetime], [isin], [groupby],
    [agg], [melt], [dropna], [unstack]) are given by their documented
    behaviour with the arguments and defaults the script uses. *)

From Stdlib Require Import List ZArith Lia Bool Ascii String.
From Stdlib Require Import QArith Qcanon Permutation Sorted.
From Stdlib Require Import OrderedTypeEx FinFun.
From Stdlib Require Strings.Byte.
Import ListNotations.

Set Implicit Arguments.
Local Open Scope Z_scope.

(** ** Total orders on column values

    [groupby] sorts the group keys (its default [sort=True]); values of a
    key column are compared by the order of their type, key tuples
    lexicographically. *)

Class Ord (K : Type) : Type := {
  cmp : K -> K -> comparison;
  cmp_eq : forall a b, cmp a b = Eq <-> a = b;
  cmp_antisym : forall a b, cmp b a = CompOpp (cmp a b);
  cmp_trans : forall a b c, cmp a b = Lt -> cmp b c = Lt -> cmp a c = Lt
}.

Definition eqb_ord {K} `{Ord K} (a b : K) : bool :=
  match cmp a b with Eq => true | _ => false end.

Definition ltb_ord {K} `{Ord K} (a b : K) : bool :=
  match cmp a b with Lt => true | _ => false end.

#[export, refine] Instance Ord_Z : Ord Z := {| cmp := Z.compare |}.
Proof.
  - intros a b. apply Z.compare_eq_iff.
  - intros a b. apply Z.compare_antisym.
  - intros a b c. rewrite !Z.compare_lt_iff. lia.
Defined.

#[export, refine] Instance Ord_string : Ord string := {| cmp := String.compare |}.
Proof.
  - exact String_as_OT.cmp_eq.
  - intros a b. apply String_as_OT.cmp_antisym.
  - intros a b c Hab Hbc.
    apply String_as_OT.cmp_lt. apply String_as_OT.cmp_lt in Hab, Hbc.
    eapply String_as_OT.lt_trans; eassumption.
Defined.

(** Lexicographic order on pairs: the first components decide unless
    they are equal. *)
Definition cmp_pair {A B} `{Ord A} `{Ord B} (x y : A * B) : comparison :=
  match cmp (fst x) (fst y) with
  | Eq => cmp (snd x) (snd y)
  | c => c
  end.

#[export, refine] Instance Ord_pair {A B} `{Ord A} `{Ord B} : Ord (A * B) :=
  {| cmp := cmp_pair |}.
Proof.
  - intros [a b] [a' b']. unfold cmp_pair. simpl.
    destruct (cmp a a') eqn:E.
    + apply cmp_eq in E. subst a'. rewrite cmp_eq.
      split; [intros ->; reflexivity | intros [=]; assumption].
    + split; [discriminate |].
      intros [= <- <-]. assert (cmp a a = Eq) by (apply cmp_eq; reflexivity).
      congruence.
    + split; [discriminate |].
      intros [= <- <-]. assert (cmp a a = Eq) by (apply cmp_eq; reflexivity).
      congruence.
  - intros [a b] [a' b']. unfold cmp_pair. simpl.
    rewrite (cmp_antisym a a').
    destruct (cmp a a'); simpl; auto using cmp_antisym.
  - intros [a b] [a' b'] [a'' b'']. unfold cmp_pair. simpl.
    destruct (cmp a a') eqn:E1; try discriminate.
    + apply cmp_eq in E1. subst a'.
      destruct (cmp a a''); auto. apply cmp_trans.
    + destruct (cmp a' a'') eqn:E2; try discriminate.
      * apply cmp_eq in E2. subst a''. rewrite E1. auto.
      * rewrite (cmp_trans _ _ _ E1 E2). auto.
Defined.

(** An order carried along an injection, used for records that are
    compared field by field. *)
Definition Ord_via {A B} `{Ord B} (f : A -> B)
  (f_inj : forall x y, f x = f y -> x = y) : Ord A.
Proof.
  refine {| cmp := fun x y => cmp (f x) (f y) |}.
  - intros a b. rewrite cmp_eq. split; [apply f_inj | congruence].
  - intros a b. apply cmp_antisym.
  - intros a b c. apply cmp_trans.
Defined.

(** ** Calendar dates and the parsing of the [Approved] column

    [Date_Approved] holds midnight timestamps; a [Timestamp] is its
    calendar date. *)

Record Timestamp : Type := mkTimestamp { year : Z; month : Z; day : Z }.

Definition ymd (t : Timestamp) : Z * Z * Z := (year t, month t, day t).

Definition ymd_inj (x y : Timestamp) : ymd x = ymd y -> x = y.
Proof. destruct x, y. unfold ymd. simpl. intros [= -> -> ->]. reflexivity. Defined.

#[export] Instance Ord_Timestamp : Ord Timestamp := Ord_via ymd ymd_inj.

(** A monthly period, [dt.to_period("M")]: year and month. *)
Definition Period : Type := Z * Z.

Definition to_period_M (t : Timestamp) : Period := (year t, month t).

Definition is_leap (y : Z) : bool :=
  (y mod 4 =? 0) && (negb (y mod 100 =? 0) || (y mod 400 =? 0)).

Definition days_in_month (y m : Z) : Z :=
  match m with
  | 1 | 3 | 5 | 7 | 8 | 10 | 12 => 31
  | 4 | 6 | 9 | 11 => 30
  | 2 => if is_leap y then 29 else 28
  | _ => 0
  end.

(** A calendar date of the proleptic Gregorian calendar, years 1 to 9999. *)
Definition valid_date (t : Timestamp) : Prop :=
  1 <= year t <= 9999 /\ 1 <= month t <= 12 /\
  1 <= day t <= days_in_month (year t) (month t).

Definition valid_dateb (t : Timestamp) : bool :=
  (1 <=? year t) && (year t <=? 9999) && (1 <=? month t) && (month t <=? 12)
  && (1 <=? day t) && (day t <=? days_in_month (year t) (month t)).

(** The range of midnights a [datetime64[ns]] value can hold:
    [Timestamp.min] is 1677-09-21 00:12:43.145224193 and [Timestamp.max]
    is 2262-04-11 23:47:16.854775807. *)
Definition Timestamp_min_day : Timestamp := mkTimestamp 1677 9 22.
Definition Timestamp_max_day : Timestamp := mkTimestamp 2262 4 11.

Definition in_bounds (t : Timestamp) : bool :=
  negb (ltb_ord t Timestamp_min_day) && negb (ltb_ord Timestamp_max_day t).

(** The integers [lo], [lo + 1], ..., [n] of them. *)
Fixpoint Zrange (lo : Z) (n : nat) : list Z :=
  match n with
  | O => []
  | S n' => lo :: Zrange (lo + 1) n'
  end.

(** *** The format ["%d/%m/%Y"]

    The format is matched as the regular expression the directives stand
    for, alternatives tried in order with backtracking:
    [%d] is [3[0-1]|[1-2]\d|0[1-9]|[1-9]| [1-9]],
    [%m] is [1[0-2]|0[1-9]|[1-9]] and [%Y] is [\d\d\d\d].
    A matcher takes the continuation matching the rest of the format. *)

Definition digit_of (c : ascii) : option Z :=
  let n := Z.of_N (N_of_ascii c) in
  if (48 <=? n) && (n <=? 57) then Some (n - 48) else None.

Definition digit_in (lo hi : Z) (c : ascii) : option Z :=
  match digit_of c with
  | Some n => if (lo <=? n) && (n <=? hi) then Some n else None
  | None => None
  end.

Definition blank (c : ascii) : option Z :=
  if Ascii.eqb c " "%char then Some 0 else None.

Definition orelse {R} (a b : option R) : option R :=
  match a with Some r => Some r | None => b end.

Definition two_chars {R} (p1 p2 : ascii -> option Z)
  (k : Z -> list ascii -> option R) (s : list ascii) : option R :=
  match s with
  | c1 :: c2 :: rest =>
      match p1 c1, p2 c2 with
      | Some a, Some b => k (10 * a + b) rest
      | _, _ => None
      end
  | _ => None
  end.

Definition one_char {R} (p : ascii -> option Z)
  (k : Z -> list ascii -> option R) (s : list ascii) : option R :=
  match s with
  | c :: rest => match p c with Some a => k a rest | None => None end
  | [] => None
  end.

Definition re_d {R} (k : Z -> list ascii -> option R) (s : list ascii) : option R :=
  orelse (two_chars (digit_in 3 3) (digit_in 0 1) k s)
  (orelse (two_chars (digit_in 1 2) (digit_in 0 9) k s)
  (orelse (two_chars (digit_in 0 0) (digit_in 1 9) k s)
  (orelse (one_char (digit_in 1 9) k s)
          (two_chars blank (digit_in 1 9) k s)))).

Definition re_m {R} (k : Z -> list ascii -> option R) (s : list ascii) : option R :=
  orelse (two_chars (digit_in 1 1) (digit_in 0 2) k s)
  (orelse (two_chars (digit_in 0 0) (digit_in 1 9) k s)
          (one_char (digit_in 1 9) k s)).

Definition re_Y {R} (k : Z -> list ascii -> option R) (s : list ascii) : option R :=
  match s with
  | c1 :: c2 :: c3 :: c4 :: rest =>
      match digit_of c1, digit_of c2, digit_of c3, digit_of c4 with
      | Some a, Some b, Some c, Some d =>
          k (1000 * a + 100 * b + 10 * c + d) rest
      | _, _, _, _ => None
      end
  | _ => None
  end.

Definition slash {R} (k : list ascii -> option R) (s : list ascii) : option R :=
  match s with
  | c :: rest => if Ascii.eqb c "/"%char then k rest else None
  | [] => None
  end.

(** The match of the whole format at the start of the string: the three
    groups and the unconverted remainder. *)
Definition match_dmy (s : list ascii) : option (Timestamp * list ascii) :=
  re_d (fun d => slash (re_m (fun m => slash (re_Y (fun y rest =>
    Some (mkTimestamp y m d, rest)))))) s.

Inductive ParseError : Type := ValueError | OutOfBoundsDatetime.

(** [strptime] with the format ["%d/%m/%Y"]: the format must match, no
    data may remain, the fields must denote a calendar date, and the
    date must fit the timestamp range. *)
Definition strptime_dmy (s : string) : Timestamp + ParseError :=
  match match_dmy (list_ascii_of_string s) with
  | Some (t, []) =>
      if valid_dateb t
      then if in_bounds t then inl t else inr OutOfBoundsDatetime
      else inr ValueError
  | Some (_, _ :: _) => inr ValueError
  | None => inr ValueError
  end.

(** [pd.to_datetime(cell, format="%d/%m/%Y", errors="coerce")]: a
    missing cell stays missing and every error becomes [NaT]. *)
Definition to_datetime (cell : option string) : option Timestamp :=
  match cell with
  | None => None
  | Some s => match strptime_dmy s with inl t => Some t | inr _ => None end
  end.

(** The text of a date under ["%d/%m/%Y"]: two digits, two digits, four
    digits. *)
Definition digit_char (n : Z) : ascii := ascii_of_N (Z.to_N (48 + n)).

Definition two_digits (n : Z) : list ascii :=
  [digit_char (n / 10); digit_char (n mod 10)].

Definition four_digits (n : Z) : list ascii :=
  [digit_char (n / 1000); digit_char (n / 100 mod 10);
   digit_char (n / 10 mod 10); digit_char (n mod 10)].

Definition strftime_dmy (t : Timestamp) : string :=
  string_of_list_ascii
    (two_digits (day t) ++ "/"%char :: two_digits (month t)
       ++ "/"%char :: four_digits (year t)).





(** ** Grouping

    [groupby(keys)] with the defaults [sort=True] and [dropna=True]:
    rows with a missing key are left out, the groups come in increasing
    key order, and the rows of a group keep the order of the frame. *)

Section GroupBy.
Context {K : Type} `{Ord K} {A : Type}.

(** Insertion into a strictly increasing list, duplicates not repeated. *)
Fixpoint insert_key (k : K) (l : list K) : list K :=
  match l with
  | [] => [k]
  | k' :: l' =>
      match cmp k k' with
      | Lt => k :: l
      | Eq => l
      | Gt => k' :: insert_key k l'
      end
  end.

Definition sort_uniq (l : list K) : list K := fold_right insert_key [] l.

Variable key : A -> option K.

Definition dropna_keys (df : list A) : list K :=
  flat_map (fun r => match key r with Some k => [k] | None => [] end) df.

Definition has_key (k : K) (r : A) : bool :=
  match key r with Some k' => eqb_ord k' k | None => false end.

Definition group_keys (df : list A) : list K := sort_uniq (dropna_keys df).

Definition groupby (df : list A) : list (K * list A) :=
  map (fun k => (k, filter (has_key k) df)) (group_keys df).

(** Strictly increasing lists. *)
Definition increasing (l : list K) : Prop :=
  StronglySorted (fun a b => cmp a b = Lt) l.

End GroupBy.

(** ** Column aggregations: ["sum"] and ["mean"] skip missing cells *)

Definition notnull {V} (col : list (option V)) : list V :=
  flat_map (fun c => match c with Some v => [v] | None => [] end) col.

Definition total (vs : list Qc) : Qc := fold_left Qcplus vs (Q2Qc 0).

Definition Qc_of_nat (n : nat) : Qc := Q2Qc (inject_Z (Z.of_nat n)).

(** The sum of a column with no value is 0. *)
Definition col_sum (col : list (option Qc)) : Qc := total (notnull col).

(** The mean of a column with no value is missing. *)
Definition col_mean (col : list (option Qc)) : option Qc :=
  match notnull col with
  | [] => None
  | vs => Some (Qcdiv (total vs) (Qc_of_nat (List.length vs)))
  end.

Definition total_Z (vs : list Z) : Z := fold_left Z.add vs 0.

(** ** The frames of the script *)

(** A row of the loaded CSV, by the column names the script uses;
    [Job_No] is the column ["Job #"], [Pre_Filing_Date] the column
    ["Pre- Filing Date"], and [indicator c] the cell of the column named
    [c], for the twelve job-type columns. *)
Record Filing : Type := mkFiling {
  Borough : option string;
  Job_Type : option string;
  Job_Status : option string;
  Approved : option string;
  Job_No : option Z;
  Building_Type : option string;
  Pre_Filing_Date : option string;
  BUILDING_CLASS : option string;
  Job_Description : option string;
  Fully_Paid : option string;
  GIS_LATITUDE : option Qc;
  GIS_LONGITUDE : option Qc;
  Initial_Cost : option Qc;
  indicator : string -> option string
}.

(** A row of [df_pandas] once the column [Date_Approved] is set. *)
Record Dated : Type := mkDated {
  filing : Filing;
  Date_Approved : option Timestamp
}.

(** The cells of the eleven key columns, in the order of the [groupby]
    list, and a key with no missing cell. *)
Definition KeyCells : Type :=
  option string * option string * option string * option string * option Z
  * option string * option string * option string * option string
  * option Timestamp * option string.

Definition Key : Type :=
  string * string * string * string * Z
  * string * string * string * string * Timestamp * string.

Definition dropna_key (c : KeyCells) : option Key :=
  match c with
  | (Some a1, Some a2, Some a3, Some a4, Some a5, Some a6, Some a7, Some a8,
     Some a9, Some a10, Some a11) =>
      Some (a1, a2, a3, a4, a5, a6, a7, a8, a9, a10, a11)
  | _ => None
  end.

Definition cells_of_key (k : Key) : KeyCells :=
  match k with
  | (a1, a2, a3, a4, a5, a6, a7, a8, a9, a10, a11) =>
      (Some a1, Some a2, Some a3, Some a4, Some a5, Some a6, Some a7, Some a8,
       Some a9, Some a10, Some a11)
  end.

(** A row over the fourteen columns the aggregation reads and writes. *)
Record AggRow : Type := mkAggRow {
  agg_keys : KeyCells;
  agg_GIS_LATITUDE : option Qc;
  agg_GIS_LONGITUDE : option Qc;
  agg_Initial_Cost : option Qc
}.

Definition agg_columns (r : Dated) : AggRow :=
  let f := filing r in
  {| agg_keys :=
       (Borough f, Job_Type f, Job_Status f, Approved f, Job_No f,
        Building_Type f, Pre_Filing_Date f, BUILDING_CLASS f,
        Job_Description f, Date_Approved r, Fully_Paid f);
     agg_GIS_LATITUDE := GIS_LATITUDE f;
     agg_GIS_LONGITUDE := GIS_LONGITUDE f;
     agg_Initial_Cost := Initial_Cost f |}.

Definition agg_key (r : AggRow) : option Key := dropna_key (agg_keys r).

(** A key tuple with a missing cell. *)
Definition isnull {V} (c : option V) : bool :=
  match c with None => true | Some _ => false end.

Definition has_null (c : KeyCells) : bool :=
  match c with
  | (a1, a2, a3, a4, a5, a6, a7, a8, a9, a10, a11) =>
      isnull a1 || isnull a2 || isnull a3 || isnull a4 || isnull a5
      || isnull a6 || isnull a7 || isnull a8 || isnull a9 || isnull a10
      || isnull a11
  end.

Definition Timestamp_eq_dec (x y : Timestamp) : {x = y} + {x <> y}.
Proof. decide equality; apply Z.eq_dec. Defined.

Definition KeyCells_eq_dec (x y : KeyCells) : {x = y} + {x <> y}.
Proof.
  repeat (decide equality;
          try apply string_dec; try apply Z.eq_dec; try apply Timestamp_eq_dec).
Defined.

(** The key tuples of a frame, each once, missing cells included. *)
Definition distinct_key_tuples (df : list AggRow) : list KeyCells :=
  nodup KeyCells_eq_dec (map agg_keys df).

(** ** [process_data] *)

(** [df_pandas["Date_Approved"] = pd.to_datetime(df_pandas["Approved"], ...)] *)
Definition dated (f : Filing) : Dated :=
  {| filing := f; Date_Approved := to_datetime (Approved f) |}.

Definition add_Date_Approved (df : list Filing) : list Dated := map dated df.

(** [.dt.year.isin([2023, 2024])]; the year of [NaT] is missing and is
    in no list. *)
Definition year_isin (years : list Z) (d : option Timestamp) : bool :=
  match d with
  | Some t => existsb (Z.eqb (year t)) years
  | None => false
  end.

Definition filter_years (df : list Dated) : list Dated :=
  filter (fun r => year_isin [2023; 2024] (Date_Approved r)) df.

(** The row [agg] writes for one group. *)
Definition agg_group (g : Key * list AggRow) : AggRow :=
  {| agg_keys := cells_of_key (fst g);
     agg_GIS_LATITUDE := col_mean (map agg_GIS_LATITUDE (snd g));
     agg_GIS_LONGITUDE := col_mean (map agg_GIS_LONGITUDE (snd g));
     agg_Initial_Cost := Some (col_sum (map agg_Initial_Cost (snd g))) |}.

(** [.groupby([...]).agg({...}).reset_index()] *)
Definition groupby_agg (df : list AggRow) : list AggRow :=
  map agg_group (groupby agg_key df).


(** What [process_data] returns: [pd.DataFrame()], with no column and no
    row, or the aggregated frame. *)
Inductive Processed : Type :=
| NoFrame
| GroupedFrame (rows : list AggRow).

Definition frame_rows (p : Processed) : list AggRow :=
  match p with NoFrame => [] | GroupedFrame rows => rows end.

(** [DataFrame.empty] *)
Definition empty (p : Processed) : bool :=
  match frame_rows p with [] => true | _ :: _ => false end.

Definition process_data (df : list Filing) : Processed :=
  let df_pandas := add_Date_Approved df in
  let df_filtered := filter_years df_pandas in
  match df_filtered with
  | [] => NoFrame
  | _ :: _ => GroupedFrame (groupby_agg (map agg_columns df_filtered))
  end.

(** The cells of [Approved] and of [Date_Approved] in a key tuple. *)
Definition key_Approved (c : KeyCells) : option string :=
  match c with (_, _, _, a4, _, _, _, _, _, _, _) => a4 end.

Definition key_Date_Approved (c : KeyCells) : option Timestamp :=
  match c with (_, _, _, _, _, _, _, _, _, a10, _) => a10 end.


(** ** [create_visualizations] *)

Local Open Scope string_scope.

Definition columns_of_interest : list string :=
  ["Plumbing"; "Mechanical"; "Boiler"; "Fuel Burning"; "Fuel Storage";
   "Standpipe"; "Sprinkler"; "Fire Alarm"; "Equipment"; "Fire Suppression";
   "Curb Cut"; "Other"].

(** A row of the long frame: the columns [Date_Approved], [Job_Type] and
    [Count], the last with cells of type [V]. *)
Record LongRow (V : Type) : Type := mkLongRow {
  long_Date_Approved : option Timestamp;
  long_Job_Type : string;
  Count : option V
}.

Arguments mkLongRow {V} _ _ _.

(** [df_filtered.melt(id_vars=["Date_Approved"], value_vars=...,
    var_name="Job_Type", value_name="Count")]: one block of rows per
    value column, in the order of the list. *)
Definition melt (df : list Dated) : list (LongRow string) :=
  flat_map
    (fun c => map (fun r => mkLongRow (Date_Approved r) c (indicator (filing r) c)) df)
    columns_of_interest.

(** [lambda x: 1 if x == "X" else 0] *)
Definition count_of_cell (x : option string) : Z :=
  match x with
  | Some s => if String.eqb s "X" then 1 else 0
  | None => 0
  end.

(** [df_long["Count"] = df_long["Count"].apply(...)] *)
Definition apply_count (df_long : list (LongRow string)) : list (LongRow Z) :=
  map (fun r => mkLongRow (long_Date_Approved r) (long_Job_Type r)
                  (Some (count_of_cell (Count r)))) df_long.

(** [df_long.dropna(subset=["Count"])] *)
Definition dropna_Count {V} (df_long : list (LongRow V)) : list (LongRow V) :=
  filter (fun r => match Count r with Some _ => true | None => false end) df_long.

(** The key of [groupby(["Month_Approved", "Job_Type"])], where
    [Month_Approved] is [Date_Approved.dt.to_period("M")]. *)
Definition month_job (r : LongRow Z) : option (Period * string) :=
  match long_Date_Approved r with
  | Some t => Some (to_period_M t, long_Job_Type r)
  | None => None
  end.

(** [groupby([...])["Count"].sum()] *)
Definition monthly_sums (df_long : list (LongRow Z)) : list (Period * string * Z) :=
  map (fun g => (fst g, total_Z (notnull (map (@Count Z) (snd g)))))
      (groupby month_job df_long).

(** The frame [unstack(fill_value=0)] makes of the sums: the months down
    the index, the job types across, 0 where a pair has no group. *)
Record Matrix : Type := mkMatrix {
  index : list Period;
  columns : list string;
  cells : list (list Z)
}.

Definition lookup_sum (sums : list (Period * string * Z)) (m : Period) (c : string) : Z :=
  match find (fun e => eqb_ord (fst e) (m, c)) sums with
  | Some e => snd e
  | None => 0
  end.

Definition unstack (sums : list (Period * string * Z)) : Matrix :=
  let months := sort_uniq (map (fun e => fst (fst e)) sums) in
  let types := sort_uniq (map (fun e => snd (fst e)) sums) in
  {| index := months;
     columns := types;
     cells := map (fun m => map (lookup_sum sums m) types) months |}.

(** The long frame as it stands when it is bucketed by month. *)
Definition long_frame (df_filtered : list Dated) : list (LongRow Z) :=
  dropna_Count (apply_count (melt df_filtered)).

Definition monthly_counts (df_filtered : list Dated) : Matrix :=
  unstack (monthly_sums (long_frame df_filtered)).

Local Close Scope string_scope.

(** The long rows of one job-type column. *)
Definition block (c : string) (df : list Dated) : list (LongRow Z) :=
  map (fun r => mkLongRow (Date_Approved r) c
                  (Some (count_of_cell (indicator (filing r) c)))) df.

(** The sum [groupby(...)["Count"].sum()] gives for the group of a key. *)
Definition group_sum (k : Period * string) (df_long : list (LongRow Z)) : Z :=
  total_Z (notnull (map (@Count Z) (filter (has_key month_job k) df_long))).

(** The number of rows of month [m] whose cell in the column [c] is the
    marker ["X"]. *)
Definition in_month (m : Period) (r : Dated) : bool :=
  match Date_Approved r with
  | Some t => eqb_ord (to_period_M t) m
  | None => false
  end.

Definition marked (x : option string) : bool :=
  match x with Some s => String.eqb s "X" | None => false end.

Definition count_X (m : Period) (c : string) (df : list Dated) : Z :=
  Z.of_nat (List.length
              (filter (fun r => in_month m r && marked (indicator (filing r) c)) df)).

(** ** The driver

    The state of a run is the three files the script names and the log
    of what the run did to the outside; a step returns a value or
    raises. *)

Inductive Event : Type :=
| HttpGet
| ToCsv (rows : list AggRow)
| Savefig (m : Matrix).

Inductive Result (A : Type) : Type :=
| Ok (a : A)
| Raised.

Arguments Ok {A} a.
Arguments Raised {A}.

Section Driver.
(** The bytes of a CSV file, and [pl.read_csv] on them ([None] when it
    raises). *)
Variable Content : Type.
Variable read_csv : Content -> option (list Filing).
(** What the portal answers to the request ([None] when the transfer
    fails). *)
Variable portal : option Content.

Record Files : Type := mkFiles {
  RAW_DATA_FILE : option Content;
  PROCESSED_DATA_FILE : option (list AggRow);
  plot_path : option Matrix;
  log : list Event
}.

(** The same files with no raw data file yet. *)
Definition without_raw (s : Files) : Files :=
  {| RAW_DATA_FILE := None;
     PROCESSED_DATA_FILE := PROCESSED_DATA_FILE s;
     plot_path := plot_path s;
     log := log s |}.

Definition M (A : Type) : Type := Files -> Result A * Files.

Definition ret {A} (a : A) : M A := fun s => (Ok a, s).

Definition bind {A B} (m : M A) (f : A -> M B) : M B :=
  fun s => match m s with
           | (Ok a, s') => f a s'
           | (Raised, s') => (Raised, s')
           end.

Definition emit (e : Event) : M unit :=
  fun s => (Ok tt, {| RAW_DATA_FILE := RAW_DATA_FILE s;
                      PROCESSED_DATA_FILE := PROCESSED_DATA_FILE s;
                      plot_path := plot_path s;
                      log := log s ++ [e] |}).

Definition raise {A} : M A := fun s => (Raised, s).

Notation "x <- m ;; k" := (bind m (fun x => k))
  (at level 61, m at next level, right associativity).
Notation "m ;; k" := (bind m (fun _ => k))
  (at level 61, right associativity).

Definition raw_exists : M bool :=
  fun s => (Ok (match RAW_DATA_FILE s with Some _ => true | None => false end), s).

Definition write_raw (c : Content) : M unit :=
  fun s => (Ok tt, {| RAW_DATA_FILE := Some c;
                      PROCESSED_DATA_FILE := PROCESSED_DATA_FILE s;
                      plot_path := plot_path s;
                      log := log s |}).

Definition write_processed (rows : list AggRow) : M unit :=
  fun s => (Ok tt, {| RAW_DATA_FILE := RAW_DATA_FILE s;
                      PROCESSED_DATA_FILE := Some rows;
                      plot_path := plot_path s;
                      log := log s |}).

Definition write_plot (m : Matrix) : M unit :=
  fun s => (Ok tt, {| RAW_DATA_FILE := RAW_DATA_FILE s;
                      PROCESSED_DATA_FILE := PROCESSED_DATA_FILE s;
                      plot_path := Some m;
                      log := log s |}).

(** [download_data(DATASET_URL, RAW_DATA_FILE)]: the request is made,
    and the file is written or the error is raised again. *)
Definition download_data : M unit :=
  emit HttpGet ;;
  match portal with
  | Some c => write_raw c
  | None => raise
  end.

(** [load_data(RAW_DATA_FILE)] *)
Definition load_data : M (list Filing) :=
  fun s => match RAW_DATA_FILE s with
           | Some c => match read_csv c with
                       | Some df => (Ok df, s)
                       | None => (Raised, s)
                       end
           | None => (Raised, s)
           end.

(** [save_processed_data(df, PROCESSED_DATA_FILE)] *)
Definition save_processed_data (df : Processed) : M unit :=
  emit (ToCsv (frame_rows df)) ;;
  write_processed (frame_rows df).

(** [create_visualizations(df_filtered)]: the chart of [monthly_counts]
    saved under [plot_path]. *)
Definition create_visualizations (df_filtered : list Dated) : M unit :=
  let m := monthly_counts df_filtered in
  emit (Savefig m) ;;
  write_plot m.

Definition main : M unit :=
  present <- raw_exists ;;
  (if negb present then download_data else ret tt) ;;
  df_raw <- load_data ;;
  let df_processed := process_data df_raw in
  if empty df_processed then ret tt
  else
    save_processed_data df_processed ;;
    let df_pandas := add_Date_Approved df_raw in
    let df_filtered := filter_years df_pandas in
    create_visualizations df_filtered.

End Driver.

(** ** The transfer loop of [download_data]

    The response comes as chunks of bytes; the loop appends every
    non-empty chunk to the file, counts the bytes, and prints the
    progress when the response declared a length.  A printed progress is
    kept as the count of bytes it was computed from. *)

Record Transfer : Type := mkTransfer {
  file : list Byte.byte;
  downloaded : Z;
  printed : list Z
}.

Definition write_chunk (total_size : Z) (st : Transfer) (chunk : list Byte.byte)
  : Transfer :=
  match chunk with
  | [] => st
  | _ :: _ =>
      let downloaded' := downloaded st + Z.of_nat (List.length chunk) in
      {| file := file st ++ chunk;
         downloaded := downloaded';
         printed := if total_size =? 0 then printed st
                    else printed st ++ [downloaded'] |}
  end.

Definition iter_content (total_size : Z) (chunks : list (list Byte.byte)) : Transfer :=
  fold_left (write_chunk total_size) chunks
            {| file := []; downloaded := 0; printed := [] |}.

(** ** Sample frames *)

Definition sample_filing (approved : string) (job : Z) : Filing :=
  {| Borough := Some "MANHATTAN"%string;
     Job_Type := Some "A2"%string;
     Job_Status := Some "R"%string;
     Approved := Some approved;
     Job_No := Some job;
     Building_Type := Some "OTHER"%string;
     Pre_Filing_Date := Some "02/01/2023"%string;
     BUILDING_CLASS := Some "O6"%string;
     Job_Description := Some "INTERIOR RENOVATION"%string;
     Fully_Paid := Some "03/01/2023"%string;
     GIS_LATITUDE := Some (Q2Qc (4075 # 100));
     GIS_LONGITUDE := Some (Q2Qc (-7398 # 100));
     Initial_Cost := Some (Q2Qc (75000 # 1));
     indicator := fun c => if String.eqb c "Plumbing" then Some "X"%string else None |}.

(** The same filing with the cell of [Borough] missing. *)
Definition without_Borough (f : Filing) : Filing :=
  {| Borough := None;
     Job_Type := Job_Type f;
     Job_Status := Job_Status f;
     Approved := Approved f;
     Job_No := Job_No f;
     Building_Type := Building_Type f;
     Pre_Filing_Date := Pre_Filing_Date f;
     BUILDING_CLASS := BUILDING_CLASS f;
     Job_Description := Job_Description f;
     Fully_Paid := Fully_Paid f;
     GIS_LATITUDE := GIS_LATITUDE f;
     GIS_LONGITUDE := GIS_LONGITUDE f;
     Initial_Cost := Initial_Cost f;
     indicator := indicator f |}.

(** The same filing with no job-type cell filled. *)
Definition without_indicators (f : Filing) : Filing :=
  {| Borough := Borough f;
     Job_Type := Job_Type f;
     Job_Status := Job_Status f;
     Approved := Approved f;
     Job_No := Job_No f;
     Building_Type := Building_Type f;
     Pre_Filing_Date := Pre_Filing_Date f;
     BUILDING_CLASS := BUILDING_CLASS f;
     Job_Description := Job_Description f;
     Fully_Paid := Fully_Paid f;
     GIS_LATITUDE := GIS_LATITUDE f;
     GIS_LONGITUDE := GIS_LONGITUDE f;
     Initial_Cost := Initial_Cost f;
     indicator := fun _ => None |}.

Definition filing_2022 : Filing := sample_filing "10/06/2022" 1.
Definition filing_2023_01 : Filing := sample_filing "15/01/2023" 2.
Definition filing_2024_12 : Filing := sample_filing "31/12/2024" 3.

(** A run that starts with the raw file [df] on disk and nothing else;
    the bytes of a file are taken to be the frame [pl.read_csv] makes of
    them. *)
Definition files_with_raw (df : list Filing) : Files (list Filing) :=
  {| RAW_DATA_FILE := Some df;
     PROCESSED_DATA_FILE := None;
     plot_path := None;
     log := [] |}.

Definition dated_2023_01 : Dated := dated filing_2023_01.
Definition dated_no_Borough : Dated := dated (without_Borough filing_2023_01).
Definition dated_no_indicators : Dated := dated (without_indicators filing_2023_01).

(** * Properties *)

(** ** Orders *)

Section OrdFacts.
Context {K : Type} `{Ord K}.

Lemma cmp_refl (a : K) : cmp a a = Eq.
Proof. apply cmp_eq. reflexivity. Qed.

Lemma cmp_gt_lt (a b : K) : cmp a b = Gt <-> cmp b a = Lt.
Proof.
  rewrite (cmp_antisym a b).
  destruct (cmp a b); simpl; intuition congruence.
Qed.

Lemma cmp_lt_asym (a b : K) : cmp a b = Lt -> cmp b a = Lt -> False.
Proof.
  intros Hab Hba. pose proof (cmp_trans _ _ _ Hab Hba) as Haa.
  rewrite cmp_refl in Haa. discriminate.
Qed.

Lemma eqb_ord_eq (a b : K) : eqb_ord a b = true <-> a = b.
Proof.
  unfold eqb_ord. rewrite <- cmp_eq.
  destruct (cmp a b); intuition congruence.
Qed.

Lemma eqb_ord_refl (a : K) : eqb_ord a a = true.
Proof. apply eqb_ord_eq. reflexivity. Qed.

Lemma eqb_ord_neq (a b : K) : a <> b -> eqb_ord a b = false.
Proof.
  intros Hne. destruct (eqb_ord a b) eqn:E; [| reflexivity].
  apply eqb_ord_eq in E. contradiction.
Qed.

(** ** Sorted lists of distinct keys *)

Lemma insert_key_In (k x : K) (l : list K) :
  In x (insert_key k l) <-> x = k \/ In x l.
Proof.
  induction l as [| k' l IH]; simpl.
  - intuition.
  - destruct (cmp k k') eqn:E; simpl.
    + apply cmp_eq in E. subst k'. intuition.
    + intuition.
    + rewrite IH. intuition.
Qed.

Lemma insert_key_increasing (k : K) (l : list K) :
  increasing l -> increasing (insert_key k l).
Proof.
  unfold increasing. induction 1 as [| k' l Hl IH Hk']; simpl.
  - constructor; constructor.
  - destruct (cmp k k') eqn:E.
    + constructor; assumption.
    + constructor; [constructor; assumption |].
      constructor; [assumption |].
      rewrite Forall_forall in *. intros x Hx.
      eapply cmp_trans; eauto.
    + constructor; [assumption |].
      rewrite Forall_forall in *. intros x Hx.
      apply insert_key_In in Hx. destruct Hx as [-> | Hx]; auto.
      apply cmp_gt_lt. assumption.
Qed.

Lemma sort_uniq_In (x : K) (l : list K) : In x (sort_uniq l) <-> In x l.
Proof.
  induction l as [| k l IH]; simpl; [tauto |].
  rewrite insert_key_In, IH. intuition.
Qed.

Lemma sort_uniq_increasing (l : list K) : increasing (sort_uniq l).
Proof.
  induction l as [| k l IH]; simpl.
  - constructor.
  - apply insert_key_increasing. exact IH.
Qed.

Lemma increasing_NoDup (l : list K) : increasing l -> NoDup l.
Proof.
  induction 1 as [| k l Hl IH Hk]; constructor; [| assumption].
  intros Hin. rewrite Forall_forall in Hk. specialize (Hk _ Hin).
  rewrite cmp_refl in Hk. discriminate.
Qed.

(** Two strictly increasing lists with the same elements are equal. *)
Lemma increasing_ext (l1 l2 : list K) :
  increasing l1 -> increasing l2 ->
  (forall x, In x l1 <-> In x l2) -> l1 = l2.
Proof.
  intros H1. revert l2.
  induction H1 as [| a l1 Hl1 IH Ha]; intros l2 H2 Hext.
  - destruct l2 as [| b l2]; [reflexivity |].
    exfalso. apply (proj2 (Hext b)). left. reflexivity.
  - destruct H2 as [| b l2 Hl2 Hb].
    + exfalso. apply (proj1 (Hext a)). left. reflexivity.
    + rewrite Forall_forall in Ha, Hb.
      assert (a = b) as <-.
      { destruct (proj1 (Hext a) (or_introl eq_refl)) as [E | Hin]; [congruence |].
        destruct (proj2 (Hext b) (or_introl eq_refl)) as [E | Hin']; [congruence |].
        exfalso. apply (cmp_lt_asym _ _ (Ha _ Hin') (Hb _ Hin)). }
      f_equal. apply IH; [assumption |].
      intros x. split; intros Hx.
      * destruct (proj1 (Hext x) (or_intror Hx)) as [E | Hin]; [| assumption].
        subst x. specialize (Ha _ Hx). rewrite cmp_refl in Ha. discriminate.
      * destruct (proj2 (Hext x) (or_intror Hx)) as [E | Hin]; [| assumption].
        subst x. specialize (Hb _ Hx). rewrite cmp_refl in Hb. discriminate.
Qed.


Lemma sort_uniq_id (l : list K) : increasing l -> sort_uniq l = l.
Proof.
  intros Hl. apply increasing_ext; auto using sort_uniq_increasing.
  intros x. apply sort_uniq_In.
Qed.

Lemma sort_uniq_NoDup (l : list K) : NoDup (sort_uniq l).
Proof. apply increasing_NoDup, sort_uniq_increasing. Qed.

(** The number of groups is the number of distinct keys. *)
Lemma sort_uniq_length (l d : list K) :
  NoDup d -> (forall x, In x l <-> In x d) ->
  List.length (sort_uniq l) = List.length d.
Proof.
  intros Hd Hext. apply Permutation_length.
  apply NoDup_Permutation; auto using sort_uniq_NoDup.
  intros x. rewrite sort_uniq_In. apply Hext.
Qed.

End OrdFacts.

(** ** Grouping *)

Section GroupByFacts.
Context {K : Type} `{Ord K} {A : Type}.
Variable key : A -> option K.

Lemma dropna_keys_In (k : K) (df : list A) :
  In k (dropna_keys key df) <-> exists r, In r df /\ key r = Some k.
Proof.
  unfold dropna_keys. rewrite in_flat_map. split.
  - intros (r & Hr & Hk). exists r. split; [assumption |].
    destruct (key r); simpl in Hk; [| contradiction].
    destruct Hk as [-> | []]. reflexivity.
  - intros (r & Hr & Hk). exists r. split; [assumption |].
    rewrite Hk. left. reflexivity.
Qed.

Lemma group_keys_In (k : K) (df : list A) :
  In k (group_keys key df) <-> exists r, In r df /\ key r = Some k.
Proof. unfold group_keys. rewrite sort_uniq_In. apply dropna_keys_In. Qed.

Lemma has_key_true (k : K) (r : A) : has_key key k r = true <-> key r = Some k.
Proof.
  unfold has_key. destruct (key r) as [k' |].
  - rewrite eqb_ord_eq. split; congruence.
  - split; discriminate.
Qed.

Lemma group_keys_increasing (df : list A) : increasing (group_keys key df).
Proof. apply sort_uniq_increasing. Qed.

(** A group is never empty. *)
Lemma group_nonempty (k : K) (df : list A) :
  In k (group_keys key df) <-> filter (has_key key k) df <> [].
Proof.
  rewrite group_keys_In. split.
  - intros (r & Hr & Hk) Hnil.
    assert (In r (filter (has_key key k) df)) as Hin
      by (apply filter_In; split; [assumption | apply has_key_true; assumption]).
    rewrite Hnil in Hin. destruct Hin.
  - intros Hne. destruct (filter (has_key key k) df) as [| r l] eqn:E; [congruence |].
    assert (In r (filter (has_key key k) df)) as Hin by (rewrite E; left; reflexivity).
    apply filter_In in Hin. destruct Hin as [Hr Hk].
    exists r. split; [assumption | apply has_key_true; assumption].
Qed.

Lemma filter_Permutation (p : A -> bool) (l l' : list A) :
  Permutation l l' -> Permutation (filter p l) (filter p l').
Proof.
  induction 1 as [| x l l' _ IH | x y l | l l' l'' _ IH1 _ IH2]; simpl.
  - constructor.
  - destruct (p x); [constructor |]; assumption.
  - destruct (p x), (p y); try reflexivity. constructor.
  - etransitivity; eassumption.
Qed.


(** Rows without a key play no part in the grouping. *)
Lemma dropna_keys_filter (df : list A) :
  dropna_keys key (filter (fun r => match key r with Some _ => true | None => false end) df)
  = dropna_keys key df.
Proof.
  induction df as [| r df IH]; simpl; [reflexivity |].
  destruct (key r) eqn:E; simpl; rewrite ?E, IH; reflexivity.
Qed.

Lemma has_key_filter (k : K) (df : list A) :
  filter (has_key key k)
    (filter (fun r => match key r with Some _ => true | None => false end) df)
  = filter (has_key key k) df.
Proof.
  induction df as [| r df IH]; simpl; [reflexivity |].
  unfold has_key at 2. destruct (key r) eqn:E; simpl.
  - unfold has_key at 1. rewrite E, IH. reflexivity.
  - exact IH.
Qed.

Lemma groupby_filter (df : list A) :
  groupby key (filter (fun r => match key r with Some _ => true | None => false end) df)
  = groupby key df.
Proof.
  unfold groupby, group_keys. rewrite dropna_keys_filter.
  apply map_ext. intros k. rewrite has_key_filter. reflexivity.
Qed.

End GroupByFacts.

(** When every row of a frame built over a list of distinct keys carries
    its own key, the groups of the frame are its rows, one by one. *)
Section Regroup.
Context {K : Type} `{Ord K} {A : Type}.
Variable key : A -> option K.
Variable f : K -> A.
Hypothesis key_f : forall k, key (f k) = Some k.

Lemma dropna_keys_map (ks : list K) : dropna_keys key (map f ks) = ks.
Proof.
  induction ks as [| k ks IH]; simpl; [reflexivity |].
  rewrite key_f. simpl. f_equal. exact IH.
Qed.

Lemma filter_own_key_notin (k : K) (ks : list K) :
  ~ In k ks -> filter (has_key key k) (map f ks) = [].
Proof.
  induction ks as [| k' ks IH]; simpl; intros Hnin; [reflexivity |].
  unfold has_key at 1. rewrite key_f.
  rewrite eqb_ord_neq by (intros ->; apply Hnin; left; reflexivity).
  apply IH. intros Hin. apply Hnin. right. assumption.
Qed.

Lemma filter_own_key (k : K) (ks : list K) :
  NoDup ks -> In k ks -> filter (has_key key k) (map f ks) = [f k].
Proof.
  induction 1 as [| k' ks Hnin Hnd IH]; simpl; intros Hin; [contradiction |].
  unfold has_key at 1. rewrite key_f.
  destruct Hin as [-> | Hin].
  - rewrite eqb_ord_refl. f_equal. apply filter_own_key_notin. assumption.
  - rewrite eqb_ord_neq by (intros ->; contradiction).
    apply IH. assumption.
Qed.

Lemma groupby_map (ks : list K) :
  increasing ks -> groupby key (map f ks) = map (fun k => (k, [f k])) ks.
Proof.
  intros Hinc. unfold groupby, group_keys.
  rewrite dropna_keys_map, (sort_uniq_id Hinc).
  apply map_ext_in. intros k Hk.
  rewrite filter_own_key; [reflexivity | | assumption].
  apply increasing_NoDup. assumption.
Qed.

End Regroup.

(** ** Sums and means *)







Lemma Qcdiv_1_r (x : Qc) : Qcdiv x (Qc_of_nat 1) = x.
Proof.
  unfold Qcdiv. replace (/ Qc_of_nat 1)%Qc with (Q2Qc 1).
  - apply Qcmult_1_r.
  - apply Qc_is_canon. reflexivity.
Qed.

(** The mean of one cell is the cell. *)
Lemma col_mean_single (c : option Qc) : col_mean [c] = c.
Proof.
  destruct c as [x |]; [| reflexivity].
  unfold col_mean. simpl. f_equal.
  unfold total. simpl. rewrite Qcplus_0_l. apply Qcdiv_1_r.
Qed.

(** The sum of one present cell is the cell. *)
Lemma col_sum_single (x : Qc) : col_sum [Some x] = x.
Proof. unfold col_sum, total. simpl. apply Qcplus_0_l. Qed.

(** The mean times the number of values is their sum. *)
Lemma col_mean_spec (col : list (option Qc)) (m : Qc) :
  col_mean col = Some m ->
  notnull col <> [] /\
  (m * Qc_of_nat (List.length (notnull col)))%Qc = col_sum col.
Proof.
  unfold col_mean, col_sum. destruct (notnull col) as [| v vs] eqn:E; [discriminate |].
  intros [= <-]. split; [discriminate |].
  rewrite Qcmult_comm. apply Qcmult_div_r.
  intros Hz. unfold Qc_of_nat in Hz. apply Q2Qc_eq_iff in Hz.
  unfold Qeq in Hz. simpl in Hz. lia.
Qed.

(** ** The aggregation of [process_data] *)

Lemma dropna_cells_of_key (k : Key) : dropna_key (cells_of_key k) = Some k.
Proof.
  destruct k as [[[[[[[[[[a1 a2] a3] a4] a5] a6] a7] a8] a9] a10] a11].
  reflexivity.
Qed.

Lemma dropna_key_Some (c : KeyCells) (k : Key) :
  dropna_key c = Some k -> c = cells_of_key k.
Proof.
  destruct c as [[[[[[[[[[a1 a2] a3] a4] a5] a6] a7] a8] a9] a10] a11].
  destruct a1; [| discriminate]. destruct a2; [| discriminate].
  destruct a3; [| discriminate]. destruct a4; [| discriminate].
  destruct a5; [| discriminate]. destruct a6; [| discriminate].
  destruct a7; [| discriminate]. destruct a8; [| discriminate].
  destruct a9; [| discriminate]. destruct a10; [| discriminate].
  destruct a11; [| discriminate].
  intros [= <-]. reflexivity.
Qed.

Lemma has_null_dropna (c : KeyCells) : has_null c = true <-> dropna_key c = None.
Proof.
  destruct c as [[[[[[[[[[a1 a2] a3] a4] a5] a6] a7] a8] a9] a10] a11].
  destruct a1; [| simpl; tauto]. destruct a2; [| simpl; tauto].
  destruct a3; [| simpl; tauto]. destruct a4; [| simpl; tauto].
  destruct a5; [| simpl; tauto]. destruct a6; [| simpl; tauto].
  destruct a7; [| simpl; tauto]. destruct a8; [| simpl; tauto].
  destruct a9; [| simpl; tauto]. destruct a10; [| simpl; tauto].
  destruct a11; [| simpl; tauto].
  simpl. split; discriminate.
Qed.

Lemma has_null_cells_of_key (k : Key) : has_null (cells_of_key k) = false.
Proof.
  destruct (has_null (cells_of_key k)) eqn:E; [| reflexivity].
  apply has_null_dropna in E. rewrite dropna_cells_of_key in E. discriminate.
Qed.

Lemma cells_of_key_inj (k k' : Key) : cells_of_key k = cells_of_key k' -> k = k'.
Proof.
  intros E. apply (f_equal dropna_key) in E.
  rewrite !dropna_cells_of_key in E. congruence.
Qed.

Lemma agg_key_agg_group (k : Key) (rows : list AggRow) :
  agg_key (agg_group (k, rows)) = Some k.
Proof. apply dropna_cells_of_key. Qed.

(** The aggregated frame, key by key. *)
Lemma groupby_agg_eq (df : list AggRow) :
  groupby_agg df
  = map (fun k => agg_group (k, filter (has_key agg_key k) df)) (group_keys agg_key df).
Proof. unfold groupby_agg, groupby. apply map_map. Qed.


Lemma groupby_agg_length (df : list AggRow) :
  List.length (groupby_agg df) = List.length (group_keys agg_key df).
Proof. rewrite groupby_agg_eq. apply length_map. Qed.


Lemma groupby_agg_keys_complete (df : list AggRow) (o : AggRow) :
  In o (groupby_agg df) ->
  exists k, agg_keys o = cells_of_key k /\ In k (group_keys agg_key df).
Proof.
  rewrite groupby_agg_eq, in_map_iff. intros (k & <- & Hk).
  exists k. split; [reflexivity | assumption].
Qed.


(** C4. Aggregating the aggregated frame again, by the same key columns
    and with the same mean and sum, gives the aggregated frame back. *)
Theorem groupby_agg_idempotent (df : list AggRow) :
  groupby_agg (groupby_agg df) = groupby_agg df.
Proof.
  rewrite (groupby_agg_eq df).
  set (f := fun k => agg_group (k, filter (has_key agg_key k) df)).
  unfold groupby_agg at 1.
  rewrite (groupby_map agg_key f).
  - rewrite map_map. apply map_ext. intros k.
    unfold agg_group, f. cbn [fst snd map].
    rewrite !col_mean_single.
    unfold agg_group. cbn [agg_GIS_LATITUDE agg_GIS_LONGITUDE agg_Initial_Cost fst snd].
    rewrite col_sum_single. reflexivity.
  - intros k. apply agg_key_agg_group.
  - apply group_keys_increasing.
Qed.




(** C10. A row with a missing cell in one of the eleven key columns
    contributes to no aggregated row: the aggregated frame is the one of
    the frame without that row, and it has fewer rows than the frame has
    distinct key tuples when tuples with missing cells are counted. *)
Theorem groupby_agg_skips_null_keys (df1 df2 : list Dated) (r : Dated) :
  has_null (agg_keys (agg_columns r)) = true ->
  groupby_agg (map agg_columns (df1 ++ r :: df2))
  = groupby_agg (map agg_columns (df1 ++ df2)) /\
  (List.length (groupby_agg (map agg_columns (df1 ++ r :: df2)))
   < List.length (distinct_key_tuples (map agg_columns (df1 ++ r :: df2))))%nat.
Proof.
  intros Hnull. pose proof Hnull as Hnone. apply has_null_dropna in Hnone.
  split.
  - unfold groupby_agg.
    rewrite <- (groupby_filter agg_key (map agg_columns (df1 ++ r :: df2))).
    rewrite <- (groupby_filter agg_key (map agg_columns (df1 ++ df2))).
    f_equal. f_equal. rewrite !map_app, !filter_app. f_equal.
    simpl. unfold agg_key at 1. rewrite Hnone. reflexivity.
  - set (views := map agg_columns (df1 ++ r :: df2)).
    rewrite groupby_agg_length.
    set (ks := group_keys agg_key views).
    apply Nat.lt_le_trans with (List.length (agg_keys (agg_columns r) :: map cells_of_key ks)).
    + simpl. rewrite length_map. lia.
    + apply NoDup_incl_length.
      * constructor.
        -- rewrite in_map_iff. intros (k & Hk & _).
           rewrite <- Hk, has_null_cells_of_key in Hnull. discriminate.
        -- apply Injective_map_NoDup.
           ++ intros k k'. apply cells_of_key_inj.
           ++ apply increasing_NoDup, group_keys_increasing.
      * intros c [<- | Hc]; unfold distinct_key_tuples; apply nodup_In.
        -- apply in_map. unfold views. apply in_map.
           apply in_or_app. right. left. reflexivity.
        -- apply in_map_iff in Hc. destruct Hc as (k & <- & Hk).
           apply group_keys_In in Hk. destruct Hk as (v & Hv & Hkv).
           apply dropna_key_Some in Hkv. rewrite <- Hkv. apply in_map. assumption.
Qed.



Lemma groupby_agg_skips_null_keys_witness :
  has_null (agg_keys (agg_columns dated_no_Borough)) = true /\
  groupby_agg (map agg_columns ([dated_2023_01] ++ dated_no_Borough :: []))
  = groupby_agg (map agg_columns ([dated_2023_01] ++ [])) /\
  (List.length (groupby_agg (map agg_columns ([dated_2023_01] ++ dated_no_Borough :: [])))
   < List.length (distinct_key_tuples
                    (map agg_columns ([dated_2023_01] ++ dated_no_Borough :: []))))%nat.
Proof.
  assert (has_null (agg_keys (agg_columns dated_no_Borough)) = true)
    as Hnull by reflexivity.
  split; [exact Hnull |].
  exact (groupby_agg_skips_null_keys [dated_2023_01] [] dated_no_Borough Hnull).
Defined.

(** ** Parsing dates *)

Lemma Zrange_In (lo : Z) (n : nat) (x : Z) :
  lo <= x < lo + Z.of_nat n -> In x (Zrange lo n).
Proof.
  revert lo. induction n as [| n IH]; intros lo Hx; simpl.
  - lia.
  - destruct (Z.eq_dec lo x) as [E | Hne]; [left; assumption | right].
    apply IH. lia.
Qed.

Ltac each_in H := simpl in H; repeat (destruct H as [<- | H]); [.. | destruct H].

Lemma digit_of_digit_char (n : Z) : 0 <= n <= 9 -> digit_of (digit_char n) = Some n.
Proof.
  intros Hn. assert (In n (Zrange 0 10)) as Hin by (apply Zrange_In; simpl; lia).
  each_in Hin; reflexivity.
Qed.

Lemma re_d_two_digits {R} (k : Z -> list ascii -> option R)
    (d : Z) (rest : list ascii) (v : R) :
  1 <= d <= 31 -> k d rest = Some v -> re_d k (two_digits d ++ rest) = Some v.
Proof.
  intros Hd. assert (In d (Zrange 1 31)) as Hin by (apply Zrange_In; simpl; lia).
  each_in Hin; intros Hk; cbv; rewrite Hk; reflexivity.
Qed.

Lemma re_m_two_digits {R} (k : Z -> list ascii -> option R)
    (m : Z) (rest : list ascii) (v : R) :
  1 <= m <= 12 -> k m rest = Some v -> re_m k (two_digits m ++ rest) = Some v.
Proof.
  intros Hm. assert (In m (Zrange 1 12)) as Hin by (apply Zrange_In; simpl; lia).
  each_in Hin; intros Hk; cbv; rewrite Hk; reflexivity.
Qed.

Lemma re_Y_four_digits {R} (k : Z -> list ascii -> option R)
    (y : Z) (rest : list ascii) :
  0 <= y <= 9999 -> re_Y k (four_digits y ++ rest) = k y rest.
Proof.
  intros Hy. unfold re_Y, four_digits. cbn [app].
  rewrite !digit_of_digit_char.
  - f_equal. pose proof (Z.div_mod y 1000). pose proof (Z.div_mod y 100).
    pose proof (Z.div_mod y 10). pose proof (Z.div_mod (y / 100) 10).
    pose proof (Z.div_mod (y / 10) 10).
    pose proof (Z.div_div y 10 10). pose proof (Z.div_div y 100 10).
    Z.div_mod_to_equations. lia.
  - pose proof (Z.mod_pos_bound y 10). lia.
  - pose proof (Z.mod_pos_bound (y / 10) 10). lia.
  - pose proof (Z.mod_pos_bound (y / 100) 10). lia.
  - split; [apply Z.div_pos; lia | apply Z.lt_succ_r, Z.div_lt_upper_bound; lia].
Qed.

Lemma days_in_month_le_31 (y m : Z) : 1 <= m <= 12 -> days_in_month y m <= 31.
Proof.
  intros Hm. assert (In m (Zrange 1 12)) as Hin by (apply Zrange_In; simpl; lia).
  each_in Hin; unfold days_in_month; try lia; destruct (is_leap y); lia.
Qed.




Lemma filter_years_Date_Approved (df : list Dated) (r : Dated) :
  In r (filter_years df) ->
  exists t, Date_Approved r = Some t /\ (year t = 2023 \/ year t = 2024).
Proof.
  unfold filter_years. rewrite filter_In. intros [_ Hy].
  destruct (Date_Approved r) as [t |]; [| discriminate].
  exists t. split; [reflexivity |].
  simpl in Hy. rewrite orb_false_r in Hy. apply orb_true_iff in Hy.
  destruct Hy as [Hy | Hy]; apply Z.eqb_eq in Hy; auto.
Qed.



(** ** The long frame of [create_visualizations] *)

Lemma count_of_cell_not_X (x : option string) :
  x <> Some "X"%string -> count_of_cell x = 0.
Proof.
  intros Hx. destruct x as [s |]; [| reflexivity].
  simpl. destruct (String.eqb s "X") eqn:E; [| reflexivity].
  apply String.eqb_eq in E. congruence.
Qed.

(** C6. A cell that is exactly ["X"] counts 1; every other cell, the
    missing cell and the empty text among them, counts 0; and
    [apply_count] writes that count in every row of the long frame. *)
Theorem count_of_cell_indicator :
  count_of_cell (Some "X"%string) = 1 /\
  (forall x, x <> Some "X"%string -> count_of_cell x = 0) /\
  count_of_cell None = 0 /\
  count_of_cell (Some ""%string) = 0 /\
  (forall df_long,
     map (@Count Z) (apply_count df_long)
     = map (fun r => Some (count_of_cell (Count r))) df_long).
Proof.
  split; [reflexivity |]. split; [exact count_of_cell_not_X |].
  split; [reflexivity |]. split; [reflexivity |].
  intros df_long. unfold apply_count. rewrite map_map. reflexivity.
Qed.

Lemma count_of_cell_indicator_witness :
  Some "x"%string <> Some "X"%string /\ count_of_cell (Some "x"%string) = 0.
Proof.
  assert (Some "x"%string <> Some "X"%string) as Hx by discriminate.
  split; [exact Hx |].
  exact (proj1 (proj2 count_of_cell_indicator) _ Hx).
Defined.


(** After [apply_count] no row lacks a count, so [dropna] keeps all. *)
Lemma dropna_apply_count (df_long : list (LongRow string)) :
  dropna_Count (apply_count df_long) = apply_count df_long.
Proof.
  unfold dropna_Count, apply_count.
  induction df_long as [| r l IH]; simpl; [reflexivity |].
  f_equal. exact IH.
Qed.

Lemma melt_In (df : list Dated) (lr : LongRow string) :
  In lr (melt df) <->
  exists c r, In c columns_of_interest /\ In r df /\
              lr = mkLongRow (Date_Approved r) c (indicator (filing r) c).
Proof.
  unfold melt. rewrite in_flat_map. split.
  - intros (c & Hc & Hin). apply in_map_iff in Hin.
    destruct Hin as (r & <- & Hr). exists c, r. auto.
  - intros (c & r & Hc & Hr & ->). exists c. split; [assumption |].
    apply in_map_iff. exists r. auto.
Qed.

Lemma long_frame_In (df : list Dated) (lr : LongRow Z) :
  In lr (long_frame df) <->
  exists c r, In c columns_of_interest /\ In r df /\
              lr = mkLongRow (Date_Approved r) c
                     (Some (count_of_cell (indicator (filing r) c))).
Proof.
  unfold long_frame. rewrite dropna_apply_count. unfold apply_count.
  rewrite in_map_iff. split.
  - intros (x & <- & Hx). apply melt_In in Hx.
    destruct Hx as (c & r & Hc & Hr & ->). exists c, r. auto.
  - intros (c & r & Hc & Hr & ->).
    exists (mkLongRow (Date_Approved r) c (indicator (filing r) c)).
    split; [reflexivity |]. apply melt_In. exists c, r. auto.
Qed.




(** ** The driver *)

Lemma filter_years_nil (df : list Filing) :
  (forall f, In f df -> year_isin [2023; 2024] (to_datetime (Approved f)) = false) ->
  filter_years (add_Date_Approved df) = [].
Proof.
  intros Hall. induction df as [| f df IH]; [reflexivity |].
  unfold filter_years, add_Date_Approved in *. simpl.
  rewrite (Hall f) by (left; reflexivity).
  apply IH. intros g Hg. apply Hall. right. assumption.
Qed.

Lemma empty_process_data_nil (df : list Filing) :
  filter_years (add_Date_Approved df) = [] -> process_data df = NoFrame.
Proof. unfold process_data. intros ->. reflexivity. Qed.

Section DriverFacts.
Variable Content : Type.
Variable read_csv : Content -> option (list Filing).
Variable portal : option Content.

(** The run once the raw file is there. *)
Lemma main_raw_present (s : Files Content) (c : Content) :
  RAW_DATA_FILE s = Some c ->
  main read_csv portal s
  = match read_csv c with
    | None => (Raised, s)
    | Some df =>
        if empty (process_data df) then (Ok tt, s)
        else
          let rows := frame_rows (process_data df) in
          let m := monthly_counts (filter_years (add_Date_Approved df)) in
          (Ok tt, {| RAW_DATA_FILE := Some c;
                     PROCESSED_DATA_FILE := Some rows;
                     plot_path := Some m;
                     log := (log s ++ [ToCsv rows]) ++ [Savefig m] |})
    end.
Proof.
  intros Hraw. unfold main, bind, raw_exists, load_data.
  rewrite Hraw. cbn [negb ret].
  rewrite Hraw. destruct (read_csv c) as [df |]; [| reflexivity].
  destruct (empty (process_data df)); [reflexivity |].
  unfold save_processed_data, create_visualizations, bind, emit, write_processed,
    write_plot.
  cbn. rewrite Hraw. reflexivity.
Qed.

(** The run when the raw file is missing: the request, then the same
    run on the downloaded file. *)
Lemma main_raw_absent (s : Files Content) (c : Content) :
  RAW_DATA_FILE s = None -> portal = Some c ->
  main read_csv portal s
  = main read_csv portal {| RAW_DATA_FILE := Some c;
                            PROCESSED_DATA_FILE := PROCESSED_DATA_FILE s;
                            plot_path := plot_path s;
                            log := log s ++ [HttpGet] |}.
Proof.
  intros Hraw Hportal. unfold main, bind, raw_exists.
  rewrite Hraw. cbn [negb].
  unfold download_data, bind, emit. cbn [fst snd].
  rewrite Hportal. reflexivity.
Qed.

(** The run when the raw file is missing and the transfer fails. *)
Lemma main_download_fails (s : Files Content) :
  RAW_DATA_FILE s = None -> portal = None ->
  fst (main read_csv portal s) = Raised.
Proof.
  intros Hraw Hportal. unfold main, bind, raw_exists.
  rewrite Hraw. cbn [negb].
  unfold download_data, bind, emit. cbn [fst snd].
  rewrite Hportal. reflexivity.
Qed.

(** C2. When no row of the loaded frame has a parsed [Approved] date of
    year 2023 or 2024, [process_data] returns the empty frame and [main]
    returns without raising, leaves the aggregated CSV and the chart as
    they were, and logs no writing of either. *)
Theorem main_stops_on_empty_filter (s : Files Content) (c : Content) (df : list Filing) :
  RAW_DATA_FILE s = Some c \/ (RAW_DATA_FILE s = None /\ portal = Some c) ->
  read_csv c = Some df ->
  (forall f, In f df -> year_isin [2023; 2024] (to_datetime (Approved f)) = false) ->
  process_data df = NoFrame /\
  empty (process_data df) = true /\
  fst (main read_csv portal s) = Ok tt /\
  PROCESSED_DATA_FILE (snd (main read_csv portal s)) = PROCESSED_DATA_FILE s /\
  plot_path (snd (main read_csv portal s)) = plot_path s /\
  (forall e, In e (log (snd (main read_csv portal s))) -> In e (log s) \/ e = HttpGet).
Proof.
  intros Hraw Hread Hall.
  assert (process_data df = NoFrame) as Hp
    by (apply empty_process_data_nil, filter_years_nil, Hall).
  split; [exact Hp |]. split; [rewrite Hp; reflexivity |].
  destruct Hraw as [Hraw | [Hraw Hportal]].
  - rewrite main_raw_present with (s := s) (c := c) by exact Hraw.
    rewrite Hread, Hp. cbn.
    repeat split; auto.
  - rewrite main_raw_absent with (s := s) (c := c) by assumption.
    erewrite main_raw_present by reflexivity.
    rewrite Hread, Hp. cbn.
    repeat split; auto.
    intros e He. apply in_app_or in He. destruct He as [He | [<- | []]]; auto.
Qed.

(** C8. When the raw data file is already there, [main] logs no request
    to the portal; and the run that starts without the file and
    downloads the same contents ends the same way, with the same
    aggregated CSV and the same chart, after the one request. *)
Theorem main_skips_download_when_raw_exists (s : Files Content) (c : Content) :
  RAW_DATA_FILE s = Some c ->
  exists evs,
    log (snd (main read_csv portal s)) = log s ++ evs /\
    ~ In HttpGet evs /\
    (portal = Some c ->
     fst (main read_csv portal (without_raw s)) = fst (main read_csv portal s) /\
     PROCESSED_DATA_FILE (snd (main read_csv portal (without_raw s)))
     = PROCESSED_DATA_FILE (snd (main read_csv portal s)) /\
     plot_path (snd (main read_csv portal (without_raw s)))
     = plot_path (snd (main read_csv portal s)) /\
     log (snd (main read_csv portal (without_raw s))) = log s ++ HttpGet :: evs).
Proof.
  intros Hraw.
  assert (forall s0 : Files Content, RAW_DATA_FILE s0 = Some c ->
          exists evs,
            ~ In HttpGet evs /\
            fst (main read_csv portal s0) = fst (main read_csv portal s) /\
            log (snd (main read_csv portal s)) = log s ++ evs /\
            log (snd (main read_csv portal s0)) = log s0 ++ evs /\
            (PROCESSED_DATA_FILE s0 = PROCESSED_DATA_FILE s ->
             PROCESSED_DATA_FILE (snd (main read_csv portal s0))
             = PROCESSED_DATA_FILE (snd (main read_csv portal s))) /\
            (plot_path s0 = plot_path s ->
             plot_path (snd (main read_csv portal s0))
             = plot_path (snd (main read_csv portal s)))) as Hsame.
  { intros s0 Hraw0.
    rewrite main_raw_present with (s := s) (c := c) by exact Hraw.
    rewrite main_raw_present with (s := s0) (c := c) by exact Hraw0.
    destruct (read_csv c) as [df |].
    - destruct (empty (process_data df)).
      + exists []. cbn. rewrite !app_nil_r. repeat split; auto.
      + eexists [ToCsv _; Savefig _]. cbn. rewrite <- !app_assoc. cbn.
        repeat split; auto.
        intros [H | [H | []]]; discriminate.
    - exists []. cbn. rewrite !app_nil_r. repeat split; auto. }
  destruct (Hsame s Hraw) as (evs & Hno & _ & Hlog & _).
  exists evs. split; [exact Hlog |]. split; [exact Hno |].
  intros Hportal.
  rewrite main_raw_absent with (s := without_raw s) (c := c) by (reflexivity || assumption).
  cbn [without_raw PROCESSED_DATA_FILE plot_path log].
  match goal with |- context [main read_csv portal ?s0] =>
    destruct (Hsame s0 eq_refl) as (evs' & _ & Hfst & Hlog1 & Hlog0 & Hproc & Hplot)
  end.
  assert (evs' = evs) as -> by (eapply app_inv_head; rewrite <- Hlog, <- Hlog1; reflexivity).
  split; [exact Hfst |]. split; [apply Hproc; reflexivity |].
  split; [apply Hplot; reflexivity |].
  rewrite Hlog0. cbn [log]. rewrite <- app_assoc. reflexivity.
Qed.

End DriverFacts.

Lemma main_stops_on_empty_filter_witness :
  (RAW_DATA_FILE (files_with_raw [filing_2022]) = Some [filing_2022] \/
   (RAW_DATA_FILE (files_with_raw [filing_2022]) = None /\ None = Some [filing_2022])) /\
  Some [filing_2022] = Some [filing_2022] /\
  (forall f, In f [filing_2022] ->
             year_isin [2023; 2024] (to_datetime (Approved f)) = false) /\
  process_data [filing_2022] = NoFrame /\
  empty (process_data [filing_2022]) = true /\
  fst (main (@Some _) None (files_with_raw [filing_2022])) = Ok tt /\
  PROCESSED_DATA_FILE (snd (main (@Some _) None (files_with_raw [filing_2022])))
  = PROCESSED_DATA_FILE (files_with_raw [filing_2022]) /\
  plot_path (snd (main (@Some _) None (files_with_raw [filing_2022])))
  = plot_path (files_with_raw [filing_2022]) /\
  (forall e, In e (log (snd (main (@Some _) None (files_with_raw [filing_2022])))) ->
             In e (log (files_with_raw [filing_2022])) \/ e = HttpGet).
Proof.
  assert (RAW_DATA_FILE (files_with_raw [filing_2022]) = Some [filing_2022] \/
          (RAW_DATA_FILE (files_with_raw [filing_2022]) = None /\
           None = Some [filing_2022])) as Hraw by (left; reflexivity).
  assert (Some [filing_2022] = Some [filing_2022]) as Hread by reflexivity.
  assert (forall f, In f [filing_2022] ->
                    year_isin [2023; 2024] (to_datetime (Approved f)) = false) as Hall
    by (intros f [<- | []]; reflexivity).
  split; [exact Hraw |]. split; [exact Hread |]. split; [exact Hall |].
  exact (@main_stops_on_empty_filter (list Filing) (@Some _) None
           (files_with_raw [filing_2022]) [filing_2022] [filing_2022] Hraw Hread Hall).
Defined.

Lemma main_skips_download_when_raw_exists_witness :
  RAW_DATA_FILE (files_with_raw [filing_2023_01]) = Some [filing_2023_01] /\
  Some [filing_2023_01] = Some [filing_2023_01] /\
  exists evs,
    log (snd (main (@Some _) (Some [filing_2023_01]) (files_with_raw [filing_2023_01])))
    = log (files_with_raw [filing_2023_01]) ++ evs /\
    ~ In HttpGet evs /\
    fst (main (@Some _) (Some [filing_2023_01])
           (without_raw (files_with_raw [filing_2023_01])))
    = fst (main (@Some _) (Some [filing_2023_01]) (files_with_raw [filing_2023_01])) /\
    PROCESSED_DATA_FILE
      (snd (main (@Some _) (Some [filing_2023_01])
              (without_raw (files_with_raw [filing_2023_01]))))
    = PROCESSED_DATA_FILE
        (snd (main (@Some _) (Some [filing_2023_01]) (files_with_raw [filing_2023_01]))) /\
    plot_path
      (snd (main (@Some _) (Some [filing_2023_01])
              (without_raw (files_with_raw [filing_2023_01]))))
    = plot_path
        (snd (main (@Some _) (Some [filing_2023_01]) (files_with_raw [filing_2023_01]))) /\
    log (snd (main (@Some _) (Some [filing_2023_01])
                (without_raw (files_with_raw [filing_2023_01]))))
    = log (files_with_raw [filing_2023_01]) ++ HttpGet :: evs.
Proof.
  assert (RAW_DATA_FILE (files_with_raw [filing_2023_01]) = Some [filing_2023_01])
    as Hraw by reflexivity.
  assert (Some [filing_2023_01] = Some [filing_2023_01]) as Hportal by reflexivity.
  split; [exact Hraw |]. split; [exact Hportal |].
  destruct (@main_skips_download_when_raw_exists (list Filing) (@Some _)
              (Some [filing_2023_01]) (files_with_raw [filing_2023_01])
              [filing_2023_01] Hraw) as (evs & Hlog & Hno & Hdl).
  exists evs. split; [exact Hlog |]. split; [exact Hno |]. exact (Hdl Hportal).
Defined.

(** ** The three-row run *)

Lemma monthly_index (df : list Dated) :
  index (monthly_counts df)
  = sort_uniq (map fst (group_keys month_job (long_frame df))).
Proof.
  unfold monthly_counts, unstack, monthly_sums, groupby. cbn [index].
  rewrite !map_map. cbn [fst]. reflexivity.
Qed.

(** The months of the chart are the months of the filtered rows. *)
Lemma monthly_index_In (df : list Dated) (m : Period) :
  In m (index (monthly_counts df)) <->
  exists r t, In r df /\ Date_Approved r = Some t /\ to_period_M t = m.
Proof.
  rewrite monthly_index, sort_uniq_In, in_map_iff. split.
  - intros ([m' c] & <- & Hk). apply group_keys_In in Hk.
    destruct Hk as (lr & Hlr & Hkey). apply long_frame_In in Hlr.
    destruct Hlr as (c' & r & _ & Hr & ->).
    unfold month_job in Hkey. cbn in Hkey.
    destruct (Date_Approved r) as [t |] eqn:Ht; [| discriminate].
    injection Hkey as Hm _. exists r, t. auto.
  - intros (r & t & Hr & Ht & <-).
    exists (to_period_M t, "Plumbing"%string). split; [reflexivity |].
    apply group_keys_In.
    exists (mkLongRow (Date_Approved r) "Plumbing"%string
              (Some (count_of_cell (indicator (filing r) "Plumbing"%string)))).
    split.
    + apply long_frame_In. exists "Plumbing"%string, r.
      split; [left; reflexivity | auto].
    + unfold month_job. cbn. rewrite Ht. reflexivity.
Qed.

Lemma has_null_false_key (c : KeyCells) :
  has_null c = false -> exists k, dropna_key c = Some k.
Proof.
  intros Hc. destruct (dropna_key c) as [k |] eqn:E; [exists k; reflexivity |].
  apply has_null_dropna in E. congruence.
Qed.

Lemma year_isin_2023_2024 (t : Timestamp) :
  year_isin [2023; 2024] (Some t) = true <-> year t = 2023 \/ year t = 2024.
Proof.
  simpl. rewrite orb_false_r, orb_true_iff, !Z.eqb_eq. tauto.
Qed.

(** The cell of [Date_Approved] in the key tuple of a row. *)
Lemma agg_keys_Date_Approved (r : Dated) :
  snd (fst (agg_keys (agg_columns r))) = Date_Approved r.
Proof. reflexivity. Qed.

(** C9. A loaded frame of three rows, in any order, one approved in
    2022, one in January 2023 and one in December 2024, the key columns
    of the last two without a missing cell: the aggregated frame has
    exactly two rows and the index of the chart has exactly the two
    months 2023-01 and 2024-12; and a run of [main] on a raw file that
    loads as this frame writes that frame and that chart. *)
Theorem three_filings_end_to_end
    (f22 f23 f24 : Filing) (t22 t23 t24 : Timestamp) (df : list Filing) :
  to_datetime (Approved f22) = Some t22 -> year t22 = 2022 ->
  to_datetime (Approved f23) = Some t23 -> year t23 = 2023 -> month t23 = 1 ->
  to_datetime (Approved f24) = Some t24 -> year t24 = 2024 -> month t24 = 12 ->
  has_null (agg_keys (agg_columns (dated f23))) = false ->
  has_null (agg_keys (agg_columns (dated f24))) = false ->
  Permutation [f22; f23; f24] df ->
  (exists rows, process_data df = GroupedFrame rows /\ List.length rows = 2%nat) /\
  index (monthly_counts (filter_years (add_Date_Approved df))) = [(2023, 1); (2024, 12)] /\
  List.length (index (monthly_counts (filter_years (add_Date_Approved df)))) = 2%nat /\
  (forall (Content : Type) (read_csv : Content -> option (list Filing))
          (portal : option Content) (s : Files Content) (c : Content),
     RAW_DATA_FILE s = Some c -> read_csv c = Some df ->
     exists rows m,
       fst (main read_csv portal s) = Ok tt /\
       PROCESSED_DATA_FILE (snd (main read_csv portal s)) = Some rows /\
       List.length rows = 2%nat /\
       plot_path (snd (main read_csv portal s)) = Some m /\
       index m = [(2023, 1); (2024, 12)]).
Proof.
  intros H22 Hy22 H23 Hy23 Hm23 H24 Hy24 Hm24 Hk23 Hk24 Hp.
  cut ((exists rows, process_data df = GroupedFrame rows /\ List.length rows = 2%nat) /\
       index (monthly_counts (filter_years (add_Date_Approved df)))
       = [(2023, 1); (2024, 12)]).
  { intros [(rows & Hrows & Hlen) Hidx].
    split; [exists rows; auto |]. split; [exact Hidx |].
    split; [rewrite Hidx; reflexivity |].
    intros Content read_csv portal s c Hraw Hread.
    rewrite main_raw_present with (c := c) by exact Hraw.
    rewrite Hread, Hrows. unfold empty. cbn [frame_rows].
    destruct rows as [| o rows]; [discriminate |]. cbn.
    eexists _, _. repeat split; [exact Hlen | exact Hidx]. }
  set (df_filtered := filter_years (add_Date_Approved df)).
  assert (forall r, In r df_filtered <-> r = dated f23 \/ r = dated f24) as Hin.
  { intros r. unfold df_filtered, filter_years, add_Date_Approved.
    rewrite filter_In, in_map_iff. split.
    - intros [(f & <- & Hf) Hyear].
      apply (Permutation_in _ (Permutation_sym Hp)) in Hf.
      destruct Hf as [<- | [<- | [<- | []]]]; auto.
      exfalso. unfold dated in Hyear. cbn [Date_Approved] in Hyear.
      rewrite H22 in Hyear. apply year_isin_2023_2024 in Hyear. lia.
    - intros [-> | ->]; (split; [eexists; split; [reflexivity |] |]).
      + apply (Permutation_in _ Hp). right. left. reflexivity.
      + unfold dated. cbn [Date_Approved]. rewrite H23.
        apply year_isin_2023_2024. auto.
      + apply (Permutation_in _ Hp). right. right. left. reflexivity.
      + unfold dated. cbn [Date_Approved]. rewrite H24.
        apply year_isin_2023_2024. auto. }
  split.
  - destruct (has_null_false_key _ Hk23) as (k23 & Hd23).
    destruct (has_null_false_key _ Hk24) as (k24 & Hd24).
    exists (groupby_agg (map agg_columns df_filtered)). split.
    + unfold process_data. fold df_filtered.
      destruct df_filtered as [| r l]; [| reflexivity].
      exfalso. apply (proj2 (Hin (dated f23))). left. reflexivity.
    + rewrite groupby_agg_length.
      unfold group_keys. apply sort_uniq_length with (d := [k23; k24]).
      * constructor; [| constructor; [intros [] | constructor]].
        intros [E | []]. subst k24.
        apply dropna_key_Some in Hd23, Hd24.
        assert (Date_Approved (dated f23) = Date_Approved (dated f24)) as Hd
          by (rewrite <- !agg_keys_Date_Approved; congruence).
        unfold dated in Hd. cbn [Date_Approved] in Hd.
        rewrite H23, H24 in Hd. injection Hd as ->. lia.
      * intros k. rewrite dropna_keys_In. split.
        -- intros (v & Hv & Hkv). apply in_map_iff in Hv.
           destruct Hv as (r & <- & Hr). apply Hin in Hr.
           unfold agg_key in Hkv.
           destruct Hr as [-> | ->]; [left | right; left]; congruence.
        -- intros [<- | [<- | []]].
           ++ exists (agg_columns (dated f23)). split; [| exact Hd23].
              apply in_map, Hin. left. reflexivity.
           ++ exists (agg_columns (dated f24)). split; [| exact Hd24].
              apply in_map, Hin. right. reflexivity.
  - apply increasing_ext.
    + rewrite monthly_index. apply sort_uniq_increasing.
    + repeat constructor.
    + intros m. rewrite monthly_index_In. split.
      * intros (r & t & Hr & Ht & <-). apply Hin in Hr.
        destruct Hr as [-> | ->]; unfold dated in Ht; cbn [Date_Approved] in Ht.
        -- left. rewrite H23 in Ht. injection Ht as <-.
           unfold to_period_M. congruence.
        -- right. left. rewrite H24 in Ht. injection Ht as <-.
           unfold to_period_M. congruence.
      * intros [<- | [<- | []]].
        -- exists (dated f23), t23. split; [apply Hin; auto |].
           split; [exact H23 |]. unfold to_period_M. congruence.
        -- exists (dated f24), t24. split; [apply Hin; auto |].
           split; [exact H24 |]. unfold to_period_M. congruence.
Qed.

Lemma three_filings_end_to_end_witness :
  (exists rows,
     process_data [filing_2024_12; filing_2022; filing_2023_01] = GroupedFrame rows /\
     List.length rows = 2%nat) /\
  index (monthly_counts
           (filter_years (add_Date_Approved [filing_2024_12; filing_2022; filing_2023_01])))
  = [(2023, 1); (2024, 12)] /\
  List.length
    (index (monthly_counts
              (filter_years
                 (add_Date_Approved [filing_2024_12; filing_2022; filing_2023_01]))))
  = 2%nat /\
  exists rows m,
    fst (main (@Some _) None (files_with_raw [filing_2024_12; filing_2022; filing_2023_01]))
    = Ok tt /\
    PROCESSED_DATA_FILE
      (snd (main (@Some _) None
              (files_with_raw [filing_2024_12; filing_2022; filing_2023_01])))
    = Some rows /\
    List.length rows = 2%nat /\
    plot_path
      (snd (main (@Some _) None
              (files_with_raw [filing_2024_12; filing_2022; filing_2023_01])))
    = Some m /\
    index m = [(2023, 1); (2024, 12)].
Proof.
  assert (Permutation [filing_2022; filing_2023_01; filing_2024_12]
                      [filing_2024_12; filing_2022; filing_2023_01]) as Hp
    by apply Permutation_sym, Permutation_cons_append.
  destruct (@three_filings_end_to_end filing_2022 filing_2023_01 filing_2024_12
              (mkTimestamp 2022 6 10) (mkTimestamp 2023 1 15) (mkTimestamp 2024 12 31)
              [filing_2024_12; filing_2022; filing_2023_01]
              eq_refl eq_refl eq_refl eq_refl eq_refl eq_refl eq_refl eq_refl
              eq_refl eq_refl Hp)
    as (Hrows & Hidx & Hlen & Hmain).
  split; [exact Hrows |]. split; [exact Hidx |]. split; [exact Hlen |].
  exact (Hmain (list Filing) (@Some _) None
           (files_with_raw [filing_2024_12; filing_2022; filing_2023_01])
           [filing_2024_12; filing_2022; filing_2023_01] eq_refl eq_refl).
Defined.

(** * Further properties of the script *)

(** ** [to_datetime] *)


Lemma match_dmy_strftime_app (t : Timestamp) (rest : list ascii) :
  valid_date t ->
  match_dmy (list_ascii_of_string (strftime_dmy t) ++ rest) = Some (t, rest).
Proof.
  intros (Hy & Hm & Hd). pose proof (days_in_month_le_31 (year t) Hm).
  unfold strftime_dmy, match_dmy.
  rewrite list_ascii_of_string_of_list_ascii.
  rewrite <- !app_assoc. cbn [app]. rewrite <- !app_assoc.
  apply re_d_two_digits; [lia |]. cbn [app slash Ascii.eqb Bool.eqb].
  apply re_m_two_digits; [lia |]. cbn [app slash Ascii.eqb Bool.eqb].
  rewrite re_Y_four_digits by lia.
  destruct t. reflexivity.
Qed.

Lemma list_ascii_of_string_app (s1 s2 : string) :
  list_ascii_of_string (s1 ++ s2)
  = (list_ascii_of_string s1 ++ list_ascii_of_string s2)%list.
Proof.
  induction s1 as [| c s1 IH]; simpl; [reflexivity |].
  rewrite IH. reflexivity.
Qed.



(** X2. Text left after the year is refused: the text of a date
    followed by anything at all is read as a missing date. *)
Theorem to_datetime_trailing_data (t : Timestamp) (c : ascii) (rest : string) :
  valid_date t ->
  to_datetime (Some (strftime_dmy t ++ String c rest)%string) = None.
Proof.
  intros Hv. unfold to_datetime, strptime_dmy.
  rewrite list_ascii_of_string_app, (match_dmy_strftime_app _ Hv).
  reflexivity.
Qed.

Lemma to_datetime_trailing_data_witness :
  valid_date (mkTimestamp 2023 3 15) /\
  to_datetime (Some (strftime_dmy (mkTimestamp 2023 3 15) ++ String " " "10:30")%string)
  = None.
Proof.
  assert (valid_date (mkTimestamp 2023 3 15)) as Hv by (unfold valid_date; simpl; lia).
  split; [exact Hv |].
  exact (to_datetime_trailing_data " "%char "10:30" Hv).
Defined.





(** ** The frame [process_data] returns *)

Section SortUniqLength.
Context {K : Type} `{Ord K}.

Lemma insert_key_length (k : K) (l : list K) :
  (List.length (insert_key k l) <= S (List.length l))%nat.
Proof.
  induction l as [| k' l IH]; simpl; [lia |].
  destruct (cmp k k'); simpl; lia.
Qed.

Lemma sort_uniq_length_le (l : list K) :
  (List.length (sort_uniq l) <= List.length l)%nat.
Proof.
  induction l as [| k l IH]; simpl; [lia |].
  pose proof (insert_key_length k (sort_uniq l)). lia.
Qed.

End SortUniqLength.

Lemma dropna_keys_length {K A} (key : A -> option K) (df : list A) :
  (List.length (dropna_keys key df) <= List.length df)%nat.
Proof.
  induction df as [| r df IH]; simpl; [lia |].
  destruct (key r); simpl; lia.
Qed.

Lemma process_data_rows (df : list Filing) :
  frame_rows (process_data df)
  = groupby_agg (map agg_columns (filter_years (add_Date_Approved df))).
Proof.
  unfold process_data.
  destruct (filter_years (add_Date_Approved df)); reflexivity.
Qed.

(** X4. The rows [process_data] returns come in strictly increasing
    order of their key tuples, every key cell present; no two rows share
    a key tuple. *)
Theorem process_data_keys_increasing (df : list Filing) :
  exists ks : list Key,
    increasing ks /\
    map agg_keys (frame_rows (process_data df)) = map cells_of_key ks /\
    NoDup (map agg_keys (frame_rows (process_data df))).
Proof.
  rewrite process_data_rows, groupby_agg_eq.
  set (views := map agg_columns (filter_years (add_Date_Approved df))).
  exists (group_keys agg_key views).
  assert (map agg_keys
            (map (fun k => agg_group (k, filter (has_key agg_key k) views))
                 (group_keys agg_key views))
          = map cells_of_key (group_keys agg_key views)) as E
    by (rewrite map_map; reflexivity).
  split; [apply group_keys_increasing |]. split; [exact E |].
  rewrite E. apply Injective_map_NoDup.
  - intros k k'. apply cells_of_key_inj.
  - apply increasing_NoDup, group_keys_increasing.
Qed.

(** X5. Aggregation never adds rows: the frame [process_data] returns
    has at most as many rows as the filter keeps, which are at most the
    rows loaded. *)
Theorem process_data_row_count (df : list Filing) :
  (List.length (frame_rows (process_data df))
   <= List.length (filter_years (add_Date_Approved df)))%nat /\
  (List.length (filter_years (add_Date_Approved df)) <= List.length df)%nat.
Proof.
  split.
  - rewrite process_data_rows, groupby_agg_length. unfold group_keys.
    etransitivity; [apply sort_uniq_length_le |].
    etransitivity; [apply dropna_keys_length |].
    rewrite length_map. reflexivity.
  - unfold filter_years, add_Date_Approved.
    etransitivity; [apply filter_length_le |].
    rewrite length_map. reflexivity.
Qed.

(** X6. Every row [process_data] returns carries an [Approved] text
    together with the date it parses to, and that date is of the year
    2023 or 2024. *)
Theorem process_data_rows_in_range (df : list Filing) (o : AggRow) :
  In o (frame_rows (process_data df)) ->
  exists s t,
    key_Approved (agg_keys o) = Some s /\
    key_Date_Approved (agg_keys o) = Some t /\
    to_datetime (Some s) = Some t /\
    (year t = 2023 \/ year t = 2024).
Proof.
  rewrite process_data_rows. intros Ho.
  apply groupby_agg_keys_complete in Ho. destruct Ho as (k & Hk & Hin).
  apply group_keys_In in Hin. destruct Hin as (v & Hv & Hkv).
  apply in_map_iff in Hv. destruct Hv as (r & <- & Hr).
  apply dropna_key_Some in Hkv. rewrite Hk, <- Hkv.
  pose proof (filter_years_Date_Approved _ _ Hr) as (t & Ht & Hy).
  unfold filter_years, add_Date_Approved in Hr.
  apply filter_In in Hr. destruct Hr as [Hr _].
  apply in_map_iff in Hr. destruct Hr as (f & <- & _).
  unfold dated in Ht. cbn [Date_Approved] in Ht.
  destruct (Approved f) as [s |] eqn:Hs; [| discriminate].
  exists s, t. cbn. rewrite Hs, Ht. auto.
Qed.

Lemma process_data_rows_in_range_witness :
  exists o s t,
    In o (frame_rows (process_data [filing_2022; filing_2024_12])) /\
    key_Approved (agg_keys o) = Some s /\
    key_Date_Approved (agg_keys o) = Some t /\
    to_datetime (Some s) = Some t /\
    (year t = 2023 \/ year t = 2024).
Proof.
  assert (exists o, In o (frame_rows (process_data [filing_2022; filing_2024_12])))
    as [o Hin].
  { destruct (frame_rows (process_data [filing_2022; filing_2024_12])) as [| o rows] eqn:E.
    - exfalso. revert E. vm_compute. discriminate.
    - exists o. left. reflexivity. }
  destruct (process_data_rows_in_range _ _ Hin) as (s & t & H).
  exists o, s, t. split; [exact Hin | exact H].
Defined.

(** The groups split the rows that have a key: every such row is in
    exactly one group. *)
Section Partition.
Context {K : Type} `{Ord K} {A : Type}.
Variable key : A -> option K.




End Partition.




Lemma flat_map_map_out {A B C} (g : B -> C) (f : A -> list B) (l : list A) :
  flat_map (fun x => map g (f x)) l = map g (flat_map f l).
Proof.
  induction l as [| x l IH]; [reflexivity |].
  cbn [flat_map]. rewrite map_app, IH. reflexivity.
Qed.


(** ** Repeated filings *)













(** ** The month-by-category matrix *)

Lemma fold_left_Zadd_shift (vs : list Z) (a : Z) :
  fold_left Z.add vs a = a + total_Z vs.
Proof.
  unfold total_Z. revert a. induction vs as [| v vs IH]; intros a; simpl; [lia |].
  rewrite (IH (a + v)), (IH v). lia.
Qed.

Lemma total_Z_cons (v : Z) (vs : list Z) : total_Z (v :: vs) = v + total_Z vs.
Proof. unfold total_Z at 1. simpl. apply fold_left_Zadd_shift. Qed.

Lemma total_Z_app (a b : list Z) : total_Z (a ++ b) = total_Z a + total_Z b.
Proof.
  induction a as [| x a IH]; cbn [app]; [reflexivity |].
  rewrite !total_Z_cons, IH. lia.
Qed.

Lemma group_sum_app (k : Period * string) (a b : list (LongRow Z)) :
  group_sum k (a ++ b) = group_sum k a + group_sum k b.
Proof.
  unfold group_sum, notnull.
  rewrite filter_app, map_app, flat_map_app. apply total_Z_app.
Qed.

Lemma find_map_key {K V} `{Ord K} (g : K -> V) (k : K) (ks : list K) :
  find (fun e => eqb_ord (fst e) k) (map (fun k' => (k', g k')) ks)
  = if existsb (fun k' => eqb_ord k' k) ks then Some (k, g k) else None.
Proof.
  induction ks as [| k' ks IH]; [reflexivity |].
  cbn [map find existsb fst]. destruct (eqb_ord k' k) eqn:E.
  - apply eqb_ord_eq in E. subst k'. reflexivity.
  - exact IH.
Qed.

Lemma lookup_sum_group_sum (df_long : list (LongRow Z)) (m : Period) (c : string) :
  lookup_sum (monthly_sums df_long) m c = group_sum (m, c) df_long.
Proof.
  unfold lookup_sum, monthly_sums, groupby. rewrite map_map. cbn [fst snd].
  rewrite (find_map_key
             (fun k => total_Z (notnull (map (@Count Z)
                                           (filter (has_key month_job k) df_long))))).
  destruct (existsb (fun k' => eqb_ord k' (m, c)) (group_keys month_job df_long)) eqn:E.
  - reflexivity.
  - unfold group_sum.
    destruct (filter (has_key month_job (m, c)) df_long) as [| r l] eqn:Hg;
      [reflexivity |].
    assert (In (m, c) (group_keys month_job df_long)) as Hin
      by (apply group_nonempty; rewrite Hg; discriminate).
    assert (existsb (fun k' => eqb_ord k' (m, c)) (group_keys month_job df_long) = true)
      as Ht by (apply existsb_exists; exists (m, c); split;
                [exact Hin | apply eqb_ord_refl]).
    congruence.
Qed.

Lemma eqb_ord_pair {A B} `{Ord A} `{Ord B} (a a' : A) (b b' : B) :
  eqb_ord (a, b) (a', b') = eqb_ord a a' && eqb_ord b b'.
Proof.
  unfold eqb_ord. cbn [cmp Ord_pair]. unfold cmp_pair. cbn [fst snd].
  destruct (cmp a a'); reflexivity.
Qed.

Lemma group_sum_cons (k : Period * string) (x : LongRow Z) (l : list (LongRow Z)) :
  group_sum k (x :: l)
  = (if has_key month_job k x
     then match Count x with Some v => v | None => 0 end
     else 0) + group_sum k l.
Proof.
  unfold group_sum. cbn [filter]. destruct (has_key month_job k x).
  - cbn [map notnull flat_map]. destruct (Count x); cbn [app].
    + apply total_Z_cons.
    + reflexivity.
  - reflexivity.
Qed.

Lemma count_of_cell_marked (x : option string) :
  count_of_cell x = if marked x then 1 else 0.
Proof. destruct x as [s |]; reflexivity. Qed.

Lemma count_X_cons (m : Period) (c : string) (r : Dated) (df : list Dated) :
  count_X m c (r :: df)
  = (if in_month m r && marked (indicator (filing r) c) then 1 else 0)
    + count_X m c df.
Proof.
  unfold count_X. cbn [filter].
  destruct (in_month m r && marked (indicator (filing r) c)); cbn [List.length]; lia.
Qed.

Lemma long_frame_blocks (df : list Dated) :
  long_frame df = flat_map (fun c => block c df) columns_of_interest.
Proof.
  unfold long_frame. rewrite dropna_apply_count. unfold apply_count, melt, block.
  rewrite <- flat_map_map_out. apply flat_map_ext. intros c.
  rewrite map_map. reflexivity.
Qed.

Lemma group_sum_block (m : Period) (c c' : string) (df : list Dated) :
  group_sum (m, c) (block c' df) = if eqb_ord c' c then count_X m c df else 0.
Proof.
  induction df as [| r df IH].
  - destruct (eqb_ord c' c); reflexivity.
  - unfold block in *. cbn [map]. rewrite group_sum_cons, IH, count_X_cons.
    unfold has_key, month_job, in_month. cbn [long_Date_Approved long_Job_Type Count].
    destruct (Date_Approved r) as [t |].
    + rewrite eqb_ord_pair. destruct (eqb_ord c' c) eqn:E.
      * apply eqb_ord_eq in E. subst c'.
        rewrite count_of_cell_marked.
        destruct (eqb_ord (to_period_M t) m), (marked (indicator (filing r) c));
          reflexivity.
      * rewrite andb_false_r. reflexivity.
    + destruct (eqb_ord c' c); reflexivity.
Qed.

Lemma group_sum_blocks_other (m : Period) (c : string) (df : list Dated)
    (cols : list string) :
  ~ In c cols -> group_sum (m, c) (flat_map (fun c' => block c' df) cols) = 0.
Proof.
  induction cols as [| c' cols IH]; intros Hnin; [reflexivity |].
  cbn [flat_map]. rewrite group_sum_app, group_sum_block.
  rewrite eqb_ord_neq by (intros ->; apply Hnin; left; reflexivity).
  rewrite IH; [reflexivity |]. intros Hin. apply Hnin. right. assumption.
Qed.

Lemma group_sum_blocks (m : Period) (c : string) (df : list Dated)
    (cols : list string) :
  NoDup cols -> In c cols ->
  group_sum (m, c) (flat_map (fun c' => block c' df) cols) = count_X m c df.
Proof.
  induction 1 as [| c' cols Hnin Hnd IH]; intros Hin; [destruct Hin |].
  cbn [flat_map]. rewrite group_sum_app, group_sum_block.
  destruct Hin as [-> | Hin].
  - rewrite eqb_ord_refl, group_sum_blocks_other by assumption. lia.
  - rewrite eqb_ord_neq by (intros ->; contradiction).
    rewrite IH by assumption. lia.
Qed.

Lemma columns_of_interest_NoDup : NoDup columns_of_interest.
Proof.
  unfold columns_of_interest.
  repeat (constructor;
          [ simpl; intros H;
            repeat (destruct H as [H | H]; [discriminate H |]); exact H | ]).
  constructor.
Qed.

(** The sum of the group of a month and a job type is the number of
    marked cells of that column in that month. *)
Lemma lookup_sum_count_X (df : list Dated) (m : Period) (c : string) :
  In c columns_of_interest ->
  lookup_sum (monthly_sums (long_frame df)) m c = count_X m c df.
Proof.
  intros Hc. rewrite lookup_sum_group_sum, long_frame_blocks.
  apply group_sum_blocks; [apply columns_of_interest_NoDup | exact Hc].
Qed.

Lemma monthly_columns (df : list Dated) :
  columns (monthly_counts df)
  = sort_uniq (map snd (group_keys month_job (long_frame df))).
Proof.
  unfold monthly_counts, unstack, monthly_sums, groupby. cbn [columns].
  rewrite !map_map. cbn [fst snd]. reflexivity.
Qed.

(** The columns of the chart are the job types, once some row has a
    date. *)
Lemma monthly_columns_In (df : list Dated) (c : string) :
  In c (columns (monthly_counts df)) <->
  In c columns_of_interest /\ exists r t, In r df /\ Date_Approved r = Some t.
Proof.
  rewrite monthly_columns, sort_uniq_In, in_map_iff. split.
  - intros ([m c'] & <- & Hk). apply group_keys_In in Hk.
    destruct Hk as (lr & Hlr & Hkey). apply long_frame_In in Hlr.
    destruct Hlr as (c'' & r & Hc & Hr & ->).
    unfold month_job in Hkey. cbn in Hkey.
    destruct (Date_Approved r) as [t |] eqn:Ht; [| discriminate].
    injection Hkey as _ Hcc. subst c''. cbn [snd].
    split; [exact Hc |]. exists r, t. auto.
  - intros (Hc & r & t & Hr & Ht).
    exists (to_period_M t, c). split; [reflexivity |].
    apply group_keys_In.
    exists (mkLongRow (Date_Approved r) c
              (Some (count_of_cell (indicator (filing r) c)))).
    split.
    + apply long_frame_In. exists c, r. auto.
    + unfold month_job. cbn. rewrite Ht. reflexivity.
Qed.

Lemma monthly_cells (df : list Dated) :
  cells (monthly_counts df)
  = map (fun m => map (fun c => count_X m c df) (columns (monthly_counts df)))
        (index (monthly_counts df)).
Proof.
  unfold monthly_counts at 1, unstack. cbn [cells].
  fold (unstack (monthly_sums (long_frame df))). fold (monthly_counts df).
  apply map_ext. intros m. apply map_ext_in. intros c Hc.
  apply lookup_sum_count_X. apply monthly_columns_In in Hc. tauto.
Qed.

Lemma count_X_positive (df : list Dated) (m : Period) (c : string) :
  0 < count_X m c df ->
  exists r t, In r df /\ Date_Approved r = Some t /\ to_period_M t = m.
Proof.
  unfold count_X. intros Hpos.
  destruct (filter (fun r => in_month m r && marked (indicator (filing r) c)) df)
    as [| r l] eqn:E; [simpl in Hpos; lia |].
  assert (In r (filter (fun r => in_month m r && marked (indicator (filing r) c)) df))
    as Hin by (rewrite E; left; reflexivity).
  apply filter_In in Hin. destruct Hin as [Hr Hp].
  apply andb_true_iff in Hp. destruct Hp as [Hm _].
  unfold in_month in Hm. destruct (Date_Approved r) as [t |] eqn:Ht; [| discriminate].
  apply eqb_ord_eq in Hm. exists r, t. auto.
Qed.

(** X9. Each cell of the month-by-category matrix is the number of rows
    of that month whose cell in that job-type column is exactly ["X"];
    and a month and a job type with at least one such row are on the
    axes of the matrix. *)
Theorem monthly_counts_cells (df : list Dated) :
  cells (monthly_counts df)
  = map (fun m => map (fun c => count_X m c df) (columns (monthly_counts df)))
        (index (monthly_counts df)) /\
  (forall m c, In c columns_of_interest -> 0 < count_X m c df ->
               In m (index (monthly_counts df)) /\
               In c (columns (monthly_counts df))).
Proof.
  split; [apply monthly_cells |].
  intros m c Hc Hpos. apply count_X_positive in Hpos.
  destruct Hpos as (r & t & Hr & Ht & Hm). split.
  - apply monthly_index_In. exists r, t. auto.
  - apply monthly_columns_In. split; [exact Hc |]. exists r, t. auto.
Qed.

Lemma monthly_counts_cells_witness :
  In "Plumbing"%string columns_of_interest /\
  0 < count_X (2023, 1) "Plumbing" [dated_2023_01] /\
  In (2023, 1) (index (monthly_counts [dated_2023_01])) /\
  In "Plumbing"%string (columns (monthly_counts [dated_2023_01])).
Proof.
  assert (In "Plumbing"%string columns_of_interest) as Hc by (left; reflexivity).
  assert (0 < count_X (2023, 1) "Plumbing" [dated_2023_01]) as Hpos by reflexivity.
  split; [exact Hc |]. split; [exact Hpos |].
  exact (proj2 (monthly_counts_cells [dated_2023_01]) _ _ Hc Hpos).
Defined.

(** X10. Once a row of the frame has a date, the columns of the matrix
    are the twelve job types in alphabetical order, whatever their
    order in the script and whatever the cells hold. *)
Theorem monthly_counts_columns (df : list Dated) (r : Dated) (t : Timestamp) :
  In r df -> Date_Approved r = Some t ->
  columns (monthly_counts df)
  = ["Boiler"; "Curb Cut"; "Equipment"; "Fire Alarm"; "Fire Suppression";
     "Fuel Burning"; "Fuel Storage"; "Mechanical"; "Other"; "Plumbing";
     "Sprinkler"; "Standpipe"]%string.
Proof.
  intros Hr Ht.
  change ["Boiler"; "Curb Cut"; "Equipment"; "Fire Alarm"; "Fire Suppression";
          "Fuel Burning"; "Fuel Storage"; "Mechanical"; "Other"; "Plumbing";
          "Sprinkler"; "Standpipe"]%string
    with (sort_uniq columns_of_interest).
  apply increasing_ext.
  - rewrite monthly_columns. apply sort_uniq_increasing.
  - apply sort_uniq_increasing.
  - intros c. rewrite monthly_columns_In, sort_uniq_In. split; [tauto |].
    intros Hc. split; [exact Hc |]. exists r, t. auto.
Qed.

Lemma monthly_counts_columns_witness :
  columns (monthly_counts [dated_no_indicators])
  = ["Boiler"; "Curb Cut"; "Equipment"; "Fire Alarm"; "Fire Suppression";
     "Fuel Burning"; "Fuel Storage"; "Mechanical"; "Other"; "Plumbing";
     "Sprinkler"; "Standpipe"]%string.
Proof.
  apply (@monthly_counts_columns [dated_no_indicators] dated_no_indicators
           (mkTimestamp 2023 1 15)).
  - left. reflexivity.
  - reflexivity.
Defined.

Lemma count_X_Permutation (m : Period) (c : string) (df df' : list Dated) :
  Permutation df df' -> count_X m c df = count_X m c df'.
Proof.
  intros Hp. unfold count_X. f_equal.
  apply Permutation_length, filter_Permutation, Hp.
Qed.

(** X11. The matrix of the chart does not depend on the order of the
    rows of the frame. *)
Theorem monthly_counts_Permutation (df df' : list Dated) :
  Permutation df df' -> monthly_counts df' = monthly_counts df.
Proof.
  intros Hp.
  assert (forall r, In r df' <-> In r df) as Hin.
  { intros r. split; apply Permutation_in;
      [apply Permutation_sym |]; exact Hp. }
  assert (index (monthly_counts df') = index (monthly_counts df)) as Hi.
  { apply increasing_ext.
    - rewrite monthly_index. apply sort_uniq_increasing.
    - rewrite monthly_index. apply sort_uniq_increasing.
    - intros m. rewrite !monthly_index_In.
      split; intros (r & t & Hr & H); exists r, t; split; auto; apply Hin; exact Hr. }
  assert (columns (monthly_counts df') = columns (monthly_counts df)) as Hc.
  { apply increasing_ext.
    - rewrite monthly_columns. apply sort_uniq_increasing.
    - rewrite monthly_columns. apply sort_uniq_increasing.
    - intros c. rewrite !monthly_columns_In.
      split; intros (Hcol & r & t & Hr & H); (split; [exact Hcol |]);
        exists r, t; split; auto; apply Hin; exact Hr. }
  assert (cells (monthly_counts df') = cells (monthly_counts df)) as Hcells.
  { rewrite !monthly_cells, Hi, Hc.
    apply map_ext. intros m. apply map_ext. intros c.
    symmetry. apply count_X_Permutation, Hp. }
  destruct (monthly_counts df') as [i' c' v'], (monthly_counts df) as [i c v].
  cbn in Hi, Hc, Hcells. subst. reflexivity.
Qed.

Lemma monthly_counts_Permutation_witness :
  monthly_counts [dated_no_indicators; dated_2023_01]
  = monthly_counts [dated_2023_01; dated_no_indicators].
Proof.
  apply monthly_counts_Permutation. apply perm_swap.
Defined.

(** ** Runs of [main] *)

Lemma groupby_agg_no_keys (df : list AggRow) :
  (forall r, In r df -> has_null (agg_keys r) = true) -> groupby_agg df = [].
Proof.
  intros Hall. rewrite groupby_agg_eq. unfold group_keys.
  replace (dropna_keys agg_key df) with (@nil Key); [reflexivity |].
  symmetry. induction df as [| r df IH]; [reflexivity |].
  cbn [dropna_keys flat_map]. fold (dropna_keys agg_key df).
  assert (agg_key r = None) as ->
    by (apply has_null_dropna, Hall; left; reflexivity).
  apply IH. intros r' Hr'. apply Hall. right. assumption.
Qed.

Section Runs.
Variable Content : Type.
Variable read_csv : Content -> option (list Filing).
Variable portal : option Content.

(** What a run does once the raw file is there, case by case. *)
Lemma main_present_cases (s : Files Content) (c : Content) :
  RAW_DATA_FILE s = Some c ->
  (read_csv c = None /\ main read_csv portal s = (Raised, s)) \/
  (exists df, read_csv c = Some df /\ empty (process_data df) = true /\
              main read_csv portal s = (Ok tt, s)) \/
  (exists df, read_csv c = Some df /\ empty (process_data df) = false /\
              main read_csv portal s
              = (Ok tt,
                 {| RAW_DATA_FILE := Some c;
                    PROCESSED_DATA_FILE := Some (frame_rows (process_data df));
                    plot_path :=
                      Some (monthly_counts (filter_years (add_Date_Approved df)));
                    log := (log s ++ [ToCsv (frame_rows (process_data df))])
                           ++ [Savefig (monthly_counts
                                          (filter_years (add_Date_Approved df)))] |})).
Proof.
  intros Hraw. rewrite main_raw_present with (c := c) by exact Hraw.
  destruct (read_csv c) as [df |]; [| left; auto].
  right. destruct (empty (process_data df)) eqn:E.
  - left. exists df. auto.
  - right. exists df. auto.
Qed.


(** The files after the request has been answered with [c]. *)
Lemma main_absent_cases (s : Files Content) :
  RAW_DATA_FILE s = None ->
  (portal = None /\
   main read_csv portal s
   = (Raised, {| RAW_DATA_FILE := None;
                 PROCESSED_DATA_FILE := PROCESSED_DATA_FILE s;
                 plot_path := plot_path s;
                 log := log s ++ [HttpGet] |})) \/
  (exists c, portal = Some c /\
     main read_csv portal s
     = main read_csv portal {| RAW_DATA_FILE := Some c;
                               PROCESSED_DATA_FILE := PROCESSED_DATA_FILE s;
                               plot_path := plot_path s;
                               log := log s ++ [HttpGet] |}).
Proof.
  intros Hraw.
  assert (portal = None \/ exists c, portal = Some c) as [Hportal | [c Hportal]]
    by (destruct portal as [c |]; [right; exists c |]; auto).
  - left. split; [exact Hportal |].
    unfold main, bind, raw_exists. rewrite Hraw. cbn [negb].
    unfold download_data, bind, emit. rewrite Hportal.
    unfold raise. rewrite Hraw. reflexivity.
  - right. exists c. split; [exact Hportal |].
    apply main_raw_absent; assumption.
Qed.


(** X14. When every row that passes the filter has a missing key cell,
    [process_data] returns a frame with the columns and no row, and
    [main] stops as it does when the filter keeps nothing: no error, no
    CSV, no chart. *)
Theorem main_stops_when_keys_missing (s : Files Content) (c : Content)
    (df : list Filing) :
  RAW_DATA_FILE s = Some c -> read_csv c = Some df ->
  filter_years (add_Date_Approved df) <> [] ->
  (forall r, In r (filter_years (add_Date_Approved df)) ->
             has_null (agg_keys (agg_columns r)) = true) ->
  process_data df = GroupedFrame [] /\
  main read_csv portal s = (Ok tt, s).
Proof.
  intros Hraw Hread Hne Hall.
  assert (process_data df = GroupedFrame []) as Hp.
  { unfold process_data.
    destruct (filter_years (add_Date_Approved df)) as [| r l] eqn:E; [contradiction |].
    f_equal. apply groupby_agg_no_keys. intros v Hv.
    apply in_map_iff in Hv. destruct Hv as (r' & <- & Hr'). apply Hall, Hr'. }
  split; [exact Hp |].
  rewrite main_raw_present with (c := c) by exact Hraw.
  rewrite Hread, Hp. reflexivity.
Qed.

(** X15. Running [main] again after a run that did not raise makes no
    request and leaves the raw file, the aggregated CSV and the chart as
    the first run left them. *)
Theorem main_rerun (s : Files Content) :
  fst (main read_csv portal s) = Ok tt ->
  exists evs,
    fst (main read_csv portal (snd (main read_csv portal s))) = Ok tt /\
    RAW_DATA_FILE (snd (main read_csv portal (snd (main read_csv portal s))))
    = RAW_DATA_FILE (snd (main read_csv portal s)) /\
    PROCESSED_DATA_FILE (snd (main read_csv portal (snd (main read_csv portal s))))
    = PROCESSED_DATA_FILE (snd (main read_csv portal s)) /\
    plot_path (snd (main read_csv portal (snd (main read_csv portal s))))
    = plot_path (snd (main read_csv portal s)) /\
    log (snd (main read_csv portal (snd (main read_csv portal s))))
    = log (snd (main read_csv portal s)) ++ evs /\
    ~ In HttpGet evs.
Proof.
  assert (forall (s0 : Files Content) c, RAW_DATA_FILE s0 = Some c ->
            fst (main read_csv portal s0) = Ok tt ->
            exists evs,
              fst (main read_csv portal (snd (main read_csv portal s0))) = Ok tt /\
              RAW_DATA_FILE (snd (main read_csv portal (snd (main read_csv portal s0))))
              = RAW_DATA_FILE (snd (main read_csv portal s0)) /\
              PROCESSED_DATA_FILE
                (snd (main read_csv portal (snd (main read_csv portal s0))))
              = PROCESSED_DATA_FILE (snd (main read_csv portal s0)) /\
              plot_path (snd (main read_csv portal (snd (main read_csv portal s0))))
              = plot_path (snd (main read_csv portal s0)) /\
              log (snd (main read_csv portal (snd (main read_csv portal s0))))
              = log (snd (main read_csv portal s0)) ++ evs /\
              ~ In HttpGet evs) as Hpresent.
  { intros s0 c Hraw Hok.
    destruct (main_present_cases s0 Hraw)
      as [[_ E] | [(df & Hread & Hemp & E) | (df & Hread & Hemp & E)]];
      rewrite E in *; cbn [fst snd] in *.
    - discriminate.
    - rewrite E. exists []. cbn. rewrite app_nil_r. repeat split; auto.
    - erewrite main_raw_present by reflexivity.
      rewrite Hread, Hemp. cbn.
      eexists [ToCsv _; Savefig _]. rewrite <- !app_assoc. repeat split.
      intros [H | [H | []]]; discriminate. }
  intros Hok. destruct (RAW_DATA_FILE s) as [c |] eqn:Hraw.
  - apply (Hpresent s c Hraw Hok).
  - destruct (main_absent_cases s Hraw) as [[_ E] | (c & _ & E)].
    + rewrite E in Hok. discriminate.
    + rewrite E in Hok |- *. eapply Hpresent; [reflexivity | exact Hok].
Qed.

End Runs.


Lemma main_stops_when_keys_missing_witness :
  process_data [without_Borough filing_2023_01] = GroupedFrame [] /\
  main (@Some _) None (files_with_raw [without_Borough filing_2023_01])
  = (Ok tt, files_with_raw [without_Borough filing_2023_01]).
Proof.
  assert (filter_years (add_Date_Approved [without_Borough filing_2023_01])
          = [dated_no_Borough]) as Hf by reflexivity.
  apply (@main_stops_when_keys_missing (list Filing) (@Some _) None
           (files_with_raw [without_Borough filing_2023_01])
           [without_Borough filing_2023_01] [without_Borough filing_2023_01]).
  - reflexivity.
  - reflexivity.
  - rewrite Hf. discriminate.
  - rewrite Hf. intros r [<- | []]. reflexivity.
Defined.

Lemma main_rerun_witness :
  fst (main (@Some _) (Some [filing_2023_01])
         (without_raw (files_with_raw [filing_2023_01]))) = Ok tt /\
  exists evs,
    fst (main (@Some _) (Some [filing_2023_01])
           (snd (main (@Some _) (Some [filing_2023_01])
                   (without_raw (files_with_raw [filing_2023_01]))))) = Ok tt /\
    RAW_DATA_FILE
      (snd (main (@Some _) (Some [filing_2023_01])
              (snd (main (@Some _) (Some [filing_2023_01])
                      (without_raw (files_with_raw [filing_2023_01]))))))
    = RAW_DATA_FILE
        (snd (main (@Some _) (Some [filing_2023_01])
                (without_raw (files_with_raw [filing_2023_01])))) /\
    PROCESSED_DATA_FILE
      (snd (main (@Some _) (Some [filing_2023_01])
              (snd (main (@Some _) (Some [filing_2023_01])
                      (without_raw (files_with_raw [filing_2023_01]))))))
    = PROCESSED_DATA_FILE
        (snd (main (@Some _) (Some [filing_2023_01])
                (without_raw (files_with_raw [filing_2023_01])))) /\
    plot_path
      (snd (main (@Some _) (Some [filing_2023_01])
              (snd (main (@Some _) (Some [filing_2023_01])
                      (without_raw (files_with_raw [filing_2023_01]))))))
    = plot_path
        (snd (main (@Some _) (Some [filing_2023_01])
                (without_raw (files_with_raw [filing_2023_01])))) /\
    log (snd (main (@Some _) (Some [filing_2023_01])
                (snd (main (@Some _) (Some [filing_2023_01])
                        (without_raw (files_with_raw [filing_2023_01]))))))
    = log (snd (main (@Some _) (Some [filing_2023_01])
                  (without_raw (files_with_raw [filing_2023_01])))) ++ evs /\
    ~ In HttpGet evs.
Proof.
  assert (fst (main (@Some _) (Some [filing_2023_01])
                 (without_raw (files_with_raw [filing_2023_01]))) = Ok tt) as Hok
    by (vm_compute; reflexivity).
  split; [exact Hok |].
  exact (@main_rerun (list Filing) (@Some _) (Some [filing_2023_01])
           (without_raw (files_with_raw [filing_2023_01])) Hok).
Defined.

(** ** The transfer loop *)

Lemma write_chunks_file (total_size : Z) (chunks : list (list Byte.byte))
    (st : Transfer) :
  file (fold_left (write_chunk total_size) chunks st) = file st ++ List.concat chunks /\
  downloaded (fold_left (write_chunk total_size) chunks st)
  = downloaded st + Z.of_nat (List.length (List.concat chunks)).
Proof.
  revert st. induction chunks as [| chunk chunks IH]; intros st; cbn [fold_left List.concat].
  - rewrite app_nil_r. cbn. split; [reflexivity | lia].
  - destruct (IH (write_chunk total_size st chunk)) as [-> ->].
    destruct chunk as [| b chunk]; cbn [write_chunk file downloaded app].
    + split; reflexivity.
    + rewrite <- app_assoc. split; [reflexivity |].
      cbn [app List.length]. rewrite length_app. cbn [List.length]. lia.
Qed.

(** X16. The loop writes the bytes of the response in order and loses
    none: the file is the concatenation of the chunks, empty chunks
    adding nothing, and [downloaded] is the size of the file. *)
Theorem iter_content_writes_all (total_size : Z) (chunks : list (list Byte.byte)) :
  file (iter_content total_size chunks) = List.concat chunks /\
  downloaded (iter_content total_size chunks)
  = Z.of_nat (List.length (file (iter_content total_size chunks))).
Proof.
  unfold iter_content.
  destruct (write_chunks_file total_size chunks
              {| file := []; downloaded := 0; printed := [] |}) as [Hf Hd].
  cbn [file downloaded app] in Hf, Hd. rewrite Hf, Hd. split; [reflexivity | lia].
Qed.

Lemma write_chunks_printed (total_size : Z) (chunks : list (list Byte.byte))
    (st : Transfer) :
  total_size <> 0 ->
  exists more,
    printed (fold_left (write_chunk total_size) chunks st) = printed st ++ more /\
    Forall (fun p => downloaded st < p
                     <= downloaded st + Z.of_nat (List.length (List.concat chunks)))
           more /\
    (List.concat chunks <> [] ->
     exists pre,
       more = pre ++ [downloaded st + Z.of_nat (List.length (List.concat chunks))]).
Proof.
  intros Hts. revert st.
  induction chunks as [| chunk chunks IH]; intros st; cbn [fold_left List.concat].
  - exists []. rewrite app_nil_r. split; [reflexivity |]. split; [constructor |].
    intros H. contradiction.
  - destruct chunk as [| b chunk].
    + cbn [write_chunk app]. apply IH.
    + assert (write_chunk total_size st (b :: chunk)
              = {| file := file st ++ b :: chunk;
                   downloaded := downloaded st + Z.of_nat (List.length (b :: chunk));
                   printed := printed st
                              ++ [downloaded st
                                  + Z.of_nat (List.length (b :: chunk))] |}) as ->.
      { unfold write_chunk. apply Z.eqb_neq in Hts. rewrite Hts. reflexivity. }
      match goal with |- context [fold_left _ chunks ?st'] =>
        destruct (IH st') as (more & Hp & Hall & Hlast)
      end.
      cbn [printed downloaded] in Hp, Hall, Hlast.
      set (n := Z.of_nat (List.length (b :: chunk))) in *.
      assert (0 < n) by (unfold n; cbn [List.length]; lia).
      exists ((downloaded st + n) :: more). rewrite Hp, <- app_assoc.
      split; [reflexivity |].
      rewrite length_app, Nat2Z.inj_add. fold n.
      split.
      * constructor; [lia |].
        rewrite Forall_forall in *. intros p Hin. specialize (Hall p Hin). lia.
      * intros _. destruct (List.concat chunks) as [| b' rest] eqn:E.
        -- destruct more as [| p more].
           ++ exists []. cbn [app List.length]. f_equal; lia.
           ++ exfalso. inversion Hall as [| ? ? Hp0 _]; subst.
              cbn [List.length] in Hp0. lia.
        -- destruct (Hlast ltac:(discriminate)) as (pre & ->).
           exists ((downloaded st + n) :: pre). cbn [app]. do 3 f_equal; lia.
Qed.

(** X17. When the response declares a length, every progress printed is
    computed from a count of bytes above 0 and at most the size of the
    file, and the last one from its whole size; so a declared length
    equal to the size of the body never shows more than 100 percent and
    ends on 100.  When no length is declared nothing is printed. *)
Theorem iter_content_progress (total_size : Z) (chunks : list (list Byte.byte)) :
  (total_size = 0 -> printed (iter_content total_size chunks) = []) /\
  (total_size <> 0 ->
   Forall (fun p => 0 < p <= Z.of_nat (List.length (List.concat chunks)))
          (printed (iter_content total_size chunks)) /\
   (List.concat chunks <> [] ->
    last (printed (iter_content total_size chunks)) 0
    = Z.of_nat (List.length (List.concat chunks)))).
Proof.
  split.
  - intros ->. unfold iter_content.
    assert (forall st, printed st = [] ->
              printed (fold_left (write_chunk 0) chunks st) = []) as Hnone.
    { induction chunks as [| chunk chunks IH]; intros st Hst; cbn [fold_left];
        [exact Hst |].
      apply IH. destruct chunk; [exact Hst |]. cbn. exact Hst. }
    apply Hnone. reflexivity.
  - intros Hts. unfold iter_content.
    destruct (write_chunks_printed chunks
                {| file := []; downloaded := 0; printed := [] |} Hts)
      as (more & Hp & Hall & Hlast).
    cbn [printed downloaded app] in Hp, Hall, Hlast. rewrite Hp.
    split; [exact Hall |]. intros Hne. destruct (Hlast Hne) as (pre & ->).
    rewrite last_last. lia.
Qed.

Lemma iter_content_progress_witness :
  printed (iter_content 0 [[Byte.x01; Byte.x02]; []; [Byte.x03]]) = [] /\
  Forall (fun p => 0 < p
                   <= Z.of_nat (List.length
                                  (List.concat [[Byte.x01; Byte.x02]; []; [Byte.x03]])))
         (printed (iter_content 3 [[Byte.x01; Byte.x02]; []; [Byte.x03]])) /\
  last (printed (iter_content 3 [[Byte.x01; Byte.x02]; []; [Byte.x03]])) 0
  = Z.of_nat (List.length (List.concat [[Byte.x01; Byte.x02]; []; [Byte.x03]])).
Proof.
  assert (3 <> 0) as Hts by lia.
  assert (List.concat [[Byte.x01; Byte.x02]; []; [Byte.x03]] <> []) as Hne
    by discriminate.
  split; [exact (proj1 (iter_content_progress 0 _) eq_refl) |].
  destruct (proj2 (iter_content_progress 3 [[Byte.x01; Byte.x02]; []; [Byte.x03]]) Hts)
    as [Hall Hlast].
  split; [exact Hall | exact (Hlast Hne)].
Defined.

(** ** Dates written month first *)



